(** * The portfolio page [frontend/app/page.tsx]: theme state, section
      navigation, content catalog and the rendered element tree.

    The page is one React component, [Home].  Its only state is the boolean
    [darkMode]; everything it shows is an element tree computed from that
    flag, from four literal arrays and from the current year.  The
    development embeds the component as it is written: JavaScript values and
    object literals, the element tree built by the JSX, the handlers stored in
    it, the effect on the media query, and [scrollToSection] acting on the
    window. *)

From Stdlib Require Import String Ascii List ZArith QArith Bool Lia FinFun.
Import ListNotations.

Local Open Scope string_scope.
Local Open Scope Z_scope.

(* ===================================================================== *)
(** ** JavaScript values *)
(* ===================================================================== *)

(** What a handler stored in the tree does when called.  The page has two
    kinds of arrow functions: [() => scrollToSection(id)] and
    [() => setDarkMode(!darkMode)]; the second closes over the value of
    [darkMode] of the render that created it, so it carries a boolean that is
    already computed. *)
Inductive Action : Type :=
| ScrollToSection (elementId : string)
| SetDarkMode (value : bool).

(** Values that occur in props and style objects, and React nodes.  An object
    is the list of its own properties in insertion order. *)
#[local] Set Warnings "-register-all".
Inductive Val : Type :=
| VUndef
| VStr (s : string)
| VNum (q : Q)
| VBool (b : bool)
| VObj (fields : list (string * Val))
| VFun (a : Action)
| VNode (n : Node)
with Node : Type :=
| Text (s : string)
| Num (n : Z)
| Elem (component : string) (props : list (string * Val)) (children : list Node).

Definition str (s : string) : Val := VStr s.
Definition num (q : Q) : Val := VNum q.
Definition obj (fields : list (string * Val)) : Val := VObj fields.
Definition flag : Val := VBool true.
Arguments num q%_Q.

Notation "k ~> v" := (@pair string Val k v) (at level 60, no associativity).

(** The character U+0022, for the CSS value [content: '""']. *)
Definition dquote : ascii := "034"%char.
Definition quoted (s : string) : string :=
  String dquote (s ++ String dquote EmptyString).
Definition two_dquotes : string := quoted EmptyString.

(** [o[k]] on the property list of an object. *)
Fixpoint lookup (k : string) (fields : list (string * Val)) : Val :=
  match fields with
  | [] => VUndef
  | (k', v) :: rest => if String.eqb k k' then v else lookup k rest
  end.

(** [v.k]; reading a property of something that is not an object gives
    [undefined] here (the page only reads properties of object literals). *)
Definition get (k : string) (v : Val) : Val :=
  match v with
  | VObj fields => lookup k fields
  | _ => VUndef
  end.

(** [o[k] = v]: an existing key keeps its place, a new key goes last. *)
Fixpoint assign (fields : list (string * Val)) (k : string) (v : Val)
  : list (string * Val) :=
  match fields with
  | [] => [(k, v)]
  | (k', v') :: rest =>
      if String.eqb k k' then (k', v) :: rest else (k', v') :: assign rest k v
  end.

(** The object literal [{ ...base, k1: v1, ..., kn: vn }]. *)
Definition spread (base : Val) (more : list (string * Val)) : Val :=
  match base with
  | VObj fields => VObj (fold_left (fun o kv => assign o (fst kv) (snd kv)) more fields)
  | _ => VObj (fold_left (fun o kv => assign o (fst kv) (snd kv)) more [])
  end.

(** Completion of a JavaScript call: normal, or an exception. *)
Inductive Completion (A : Type) : Type :=
| Normal (a : A)
| Throw (error : string).
Arguments Normal {A} a.
Arguments Throw {A} error.

Definition bind {A B : Type} (c : Completion A) (k : A -> Completion B)
  : Completion B :=
  match c with
  | Normal a => k a
  | Throw e => Throw e
  end.

Notation "x <- c ;; k" := (bind c (fun x => k))
  (at level 61, c at next level, right associativity).

(* ===================================================================== *)
(** ** Dates *)
(* ===================================================================== *)

(** A [Date] holds a time value in milliseconds since the epoch (UTC); the
    local time zone adjustment of the host is kept with it. *)
Record Date : Type := mkDate { timeValue : Z; localTZA : Z }.

Definition msPerDay : Z := 86400000.

(** Year of the civil date of a day number (days since 1970-01-01), by eras
    of 400 years. *)
Definition yearFromDay (day : Z) : Z :=
  let z := day + 719468 in
  let era := z / 146097 in
  let doe := z - era * 146097 in
  let yoe := (doe - doe / 1460 + doe / 36524 - doe / 146096) / 365 in
  let doy := doe - (365 * yoe + yoe / 4 - yoe / 100) in
  let mp := (5 * doy + 2) / 153 in
  let m := if mp <? 10 then mp + 3 else mp - 9 in
  yoe + era * 400 + (if m <=? 2 then 1 else 0).

(** [d.getFullYear()]: the year of [d] in local time. *)
Definition getFullYear (d : Date) : Z :=
  yearFromDay ((timeValue d + localTZA d) / msPerDay).

(* ===================================================================== *)
(** ** Theme and styles (computed from [darkMode] at every render) *)
(* ===================================================================== *)

(** The configuration passed to [createTheme].  [createTheme] is Material UI's;
    it completes the configuration with defaults and leaves every field given
    here as given, so the field values of the theme that the page sets and
    reads ([theme.palette.primary.main]) are those of this object. *)
Definition theme (darkMode : bool) : Val :=
  obj [
    "palette" ~> obj [
      "mode" ~> str (if darkMode then "dark" else "light");
      "primary" ~> obj [ "main" ~> str "#3a86ff" ];
      "secondary" ~> obj [ "main" ~> str "#ff006e" ];
      "background" ~> obj [
        "default" ~> str (if darkMode then "#0a1929" else "#f8fafc");
        "paper" ~> str (if darkMode then "#132f4c" else "#ffffff")
      ]
    ];
    "typography" ~> obj [
      "fontFamily" ~>
        str (quoted "Inter" ++ ", " ++ quoted "Roboto" ++ ", " ++
             quoted "Helvetica" ++ ", " ++ quoted "Arial" ++ ", sans-serif");
      "h1" ~> obj [ "fontWeight" ~> num 700 ];
      "h2" ~> obj [ "fontWeight" ~> num 700 ];
      "h3" ~> obj [ "fontWeight" ~> num 600 ];
      "h4" ~> obj [ "fontWeight" ~> num 600 ];
      "h5" ~> obj [ "fontWeight" ~> num 600 ];
      "h6" ~> obj [ "fontWeight" ~> num 600 ]
    ];
    "shape" ~> obj [ "borderRadius" ~> num 12 ];
    "components" ~> obj [
      "MuiButton" ~> obj [
        "styleOverrides" ~> obj [
          "root" ~> obj [
            "textTransform" ~> str "none";
            "fontWeight" ~> num 600;
            "borderRadius" ~> num 8;
            "padding" ~> str "10px 20px"
          ]
        ]
      ];
      "MuiCard" ~> obj [
        "styleOverrides" ~> obj [
          "root" ~> obj [
            "borderRadius" ~> num 16;
            "overflow" ~> str "hidden"
          ]
        ]
      ];
      "MuiPaper" ~> obj [
        "styleOverrides" ~> obj [
          "root" ~> obj [ "borderRadius" ~> num 16 ]
        ]
      ]
    ]
  ].

(** The [styles] object. *)
Definition styles (darkMode : bool) : Val :=
  obj [
    "gradientBg" ~> obj [
      "background" ~>
        str (if darkMode
             then "linear-gradient(to bottom right, #0a1929, #132f4c)"
             else "linear-gradient(to bottom right, #f8fafc, #e2e8f0)");
      "minHeight" ~> str "100vh"
    ];
    "navBar" ~> obj [
      "backdropFilter" ~> str "blur(12px)";
      "backgroundColor" ~>
        str (if darkMode then "rgba(19, 47, 76, 0.8)" else "rgba(255, 255, 255, 0.8)");
      "boxShadow" ~>
        str (if darkMode then "0 4px 30px rgba(0, 0, 0, 0.1)"
             else "0 4px 30px rgba(0, 0, 0, 0.05)");
      "borderRadius" ~> str "0px"
    ];
    "heroSection" ~> obj [
      "position" ~> str "relative";
      "overflow" ~> str "hidden";
      "padding" ~> str "6rem 0 10rem 0";
      "backgroundColor" ~> str (if darkMode then "#132f4c" else "#ffffff")
    ];
    "heroGradient" ~> obj [
      "position" ~> str "absolute";
      "inset" ~> num 0;
      "zIndex" ~> num 0;
      "opacity" ~> num 0.1
    ];
    "innerGradient" ~> obj [
      "position" ~> str "absolute";
      "inset" ~> num 0;
      "background" ~> str "linear-gradient(to right, #3a86ff, #ff006e)";
      "transform" ~> str "rotate(12deg) translateX(50%) translateY(33%)"
    ];
    "sectionTitle" ~> obj [
      "fontWeight" ~> str "bold";
      "marginBottom" ~> str "0.5rem";
      "textAlign" ~> str "center";
      "position" ~> str "relative";
      "zIndex" ~> num 1
    ];
    "divider" ~> obj [
      "width" ~> str "5rem";
      "height" ~> str "4px";
      "margin" ~> str "0.5rem auto 2rem auto";
      "backgroundColor" ~> str "#3a86ff";
      "borderRadius" ~> str "2px"
    ];
    "projectCard" ~> obj [
      "height" ~> str "100%";
      "display" ~> str "flex";
      "flexDirection" ~> str "column";
      "transition" ~> str "transform 0.3s ease, box-shadow 0.3s ease";
      "&:hover" ~> obj [
        "transform" ~> str "translateY(-8px)";
        "boxShadow" ~> str "0 16px 40px rgba(0, 0, 0, 0.12)"
      ]
    ];
    "skillLabel" ~> obj [
      "display" ~> str "flex";
      "justifyContent" ~> str "space-between";
      "marginBottom" ~> str "0.25rem"
    ];
    "skillProgress" ~> obj [
      "height" ~> num 8;
      "borderRadius" ~> num 4;
      "backgroundColor" ~>
        str (if darkMode then "rgba(255, 255, 255, 0.1)" else "rgba(0, 0, 0, 0.05)")
    ];
    "skillProgressBar" ~> obj [
      "backgroundImage" ~> str "linear-gradient(to right, #3a86ff, #5e60ce)";
      "borderRadius" ~> num 4
    ];
    "techTag" ~> obj [
      "padding" ~> str "0.5rem 1rem";
      "backgroundColor" ~>
        str (if darkMode then "rgba(255, 255, 255, 0.05)" else "rgba(0, 0, 0, 0.03)");
      "borderRadius" ~> str "8px";
      "border" ~>
        str (if darkMode then "1px solid rgba(255, 255, 255, 0.1)"
             else "1px solid rgba(0, 0, 0, 0.05)");
      "color" ~> str (if darkMode then "#e2e8f0" else "#334155");
      "margin" ~> str "0.375rem";
      "display" ~> str "inline-block";
      "fontWeight" ~> num 500
    ];
    "contactForm" ~> obj [
      "& .MuiTextField-root" ~> obj [ "marginBottom" ~> str "1.5rem" ]
    ];
    "socialIcon" ~> obj [
      "color" ~> str (if darkMode then "#e2e8f0" else "#475569");
      "fontSize" ~> str "1.5rem";
      "marginRight" ~> str "1rem";
      "transition" ~> str "color 0.2s, transform 0.2s";
      "&:hover" ~> obj [
        "color" ~> str "#3a86ff";
        "transform" ~> str "translateY(-3px)"
      ]
    ];
    "sectionContainer" ~> obj [
      "position" ~> str "relative";
      "zIndex" ~> num 1
    ];
    "profileImage" ~> obj [
      "border" ~> str (if darkMode then "4px solid #132f4c" else "4px solid #ffffff");
      "boxShadow" ~>
        str (if darkMode then "0 20px 40px rgba(0, 0, 0, 0.3)"
             else "0 20px 40px rgba(0, 0, 0, 0.15)")
    ];
    "sectionShape" ~> obj [
      "position" ~> str "absolute";
      "bottom" ~> num (-100);
      "right" ~> num (-100);
      "width" ~> num 300;
      "height" ~> num 300;
      "borderRadius" ~> str "50%";
      "background" ~>
        str "linear-gradient(135deg, rgba(58, 134, 255, 0.1), rgba(255, 0, 110, 0.1))";
      "zIndex" ~> num 0
    ]
  ].

(* ===================================================================== *)
(** ** The content catalog *)
(* ===================================================================== *)

Record Project : Type := mkProject {
  title : string;
  description : string;
  image : string;
  technologies : list string;
  github : string;
  demo : string
}.

Record Skill : Type := mkSkill { name : string; value : Z }.

Record Catalog : Type := mkCatalog {
  projects : list Project;
  frontend : list Skill;
  backend : list Skill;
  others : list string
}.

Definition projectsData : list Project := [
  mkProject "E-commerce Platform"
    "A full-stack e-commerce solution with React, Node.js, and Stripe integration that handles 10,000+ monthly transactions."
    "/project1.jpg"
    ["React"; "Node.js"; "MongoDB"]
    "https://github.com/johndoe/ecommerce"
    "https://ecommerce-demo.example.com";
  mkProject "SaaS Analytics Dashboard"
    "An analytics dashboard for SaaS businesses with real-time data visualization and custom reporting features."
    "/project2.jpg"
    ["Next.js"; "TypeScript"; "D3.js"]
    "https://github.com/johndoe/saas-dashboard"
    "https://saas-dashboard.example.com";
  mkProject "AI Chat Application"
    "A real-time chat application with AI-powered responses and language translation supporting 20+ languages."
    "/project3.jpg"
    ["React"; "Socket.io"; "OpenAI API"]
    "https://github.com/johndoe/ai-chat"
    "https://ai-chat.example.com"
].

Definition frontendSkills : list Skill := [
  mkSkill "React / Next.js" 95;
  mkSkill "TypeScript" 90;
  mkSkill "UI/UX Design" 85
].

Definition backendSkills : list Skill := [
  mkSkill "Node.js / Express" 85;
  mkSkill "Database Design" 80;
  mkSkill "GraphQL" 75
].

Definition otherTechnologies : list string := [
  "Docker"; "AWS"; "CI/CD"; "Jest"; "Git";
  "Redux"; "Firebase"; "Webpack"; "TailwindCSS"; "Figma"
].

(** The four arrays as the component declares them. *)
Definition catalog : Catalog :=
  mkCatalog projectsData frontendSkills backendSkills otherTechnologies.

(* ===================================================================== *)
(** ** The element tree returned by [Home] *)
(* ===================================================================== *)

Notation "v '.:' k" := (get k v) (at level 40, left associativity).

(** ===== NAVIGATION BAR ===== *)
Definition navigationBar (darkMode : bool) : Node :=
  Elem "AppBar"
    [ "position" ~> str "sticky"; "elevation" ~> num 0;
      "sx" ~> styles darkMode .: "navBar"; "color" ~> str "transparent" ]
    [ Elem "Container" [ "maxWidth" ~> str "lg" ]
      [ Elem "Toolbar" [ "sx" ~> obj [ "justifyContent" ~> str "space-between" ] ]
        [ Elem "Typography"
            [ "variant" ~> str "h6"; "fontWeight" ~> str "bold";
              "color" ~> str "text.primary" ]
            [ Elem "Box"
                [ "component" ~> str "span";
                  "sx" ~> obj [ "color" ~> theme darkMode .: "palette" .: "primary" .: "main" ] ]
                [ Text "John" ];
              Text "Doe" ];
          Elem "Box"
            [ "sx" ~> obj [ "display" ~> str "flex"; "alignItems" ~> str "center" ] ]
            [ Elem "Box"
                [ "sx" ~> obj [ "display" ~> obj [ "xs" ~> str "none"; "md" ~> str "flex" ] ] ]
                [ Elem "Button"
                    [ "onClick" ~> VFun (ScrollToSection "about");
                      "color" ~> str "inherit"; "sx" ~> obj [ "mx" ~> num 1 ] ]
                    [ Text "About" ];
                  Elem "Button"
                    [ "onClick" ~> VFun (ScrollToSection "projects");
                      "color" ~> str "inherit"; "sx" ~> obj [ "mx" ~> num 1 ] ]
                    [ Text "Projects" ];
                  Elem "Button"
                    [ "onClick" ~> VFun (ScrollToSection "skills");
                      "color" ~> str "inherit"; "sx" ~> obj [ "mx" ~> num 1 ] ]
                    [ Text "Skills" ];
                  Elem "Button"
                    [ "onClick" ~> VFun (ScrollToSection "contact");
                      "color" ~> str "inherit"; "sx" ~> obj [ "mx" ~> num 1 ] ]
                    [ Text "Contact" ] ];
              Elem "Box"
                [ "sx" ~> obj [
                    "display" ~> str "flex";
                    "alignItems" ~> str "center";
                    "ml" ~> num 2;
                    "borderLeft" ~> obj [ "xs" ~> str "none"; "md" ~> str "1px solid" ];
                    "borderColor" ~> str "divider";
                    "borderRight" ~> obj [ "xs" ~> str "none"; "md" ~> str "1px solid" ];
                    "pl" ~> obj [ "xs" ~> num 0; "md" ~> num 2 ];
                    "pr" ~> obj [ "xs" ~> num 0; "md" ~> num 2 ] ] ]
                [ Elem "IconButton"
                    [ "href" ~> str "https://github.com/johndoe";
                      "target" ~> str "_blank";
                      "rel" ~> str "noopener noreferrer";
                      "color" ~> str "inherit";
                      "size" ~> str "small";
                      "sx" ~> obj [
                        "mx" ~> num 0.5;
                        "transition" ~> str "transform 0.2s, color 0.2s";
                        "&:hover" ~> obj [
                          "color" ~> str (if darkMode then "#f0f6fc" else "#24292e");
                          "transform" ~> str "translateY(-3px)" ] ] ]
                    [ Elem "FaGithub" [] [] ];
                  Elem "IconButton"
                    [ "href" ~> str "https://linkedin.com/in/johndoe";
                      "target" ~> str "_blank";
                      "rel" ~> str "noopener noreferrer";
                      "color" ~> str "inherit";
                      "size" ~> str "small";
                      "sx" ~> obj [
                        "mx" ~> num 0.5;
                        "transition" ~> str "transform 0.2s, color 0.2s";
                        "&:hover" ~> obj [
                          "color" ~> str "#0a66c2";
                          "transform" ~> str "translateY(-3px)" ] ] ]
                    [ Elem "FaLinkedinIn" [] [] ];
                  Elem "IconButton"
                    [ "href" ~> str "https://twitter.com/johndoe";
                      "target" ~> str "_blank";
                      "rel" ~> str "noopener noreferrer";
                      "color" ~> str "inherit";
                      "size" ~> str "small";
                      "sx" ~> obj [
                        "mx" ~> num 0.5;
                        "transition" ~> str "transform 0.2s, color 0.2s";
                        "&:hover" ~> obj [
                          "color" ~> str "#1da1f2";
                          "transform" ~> str "translateY(-3px)" ] ] ]
                    [ Elem "FaTwitter" [] [] ] ];
              Elem "Box"
                [ "sx" ~> obj [
                    "display" ~> str "flex"; "alignItems" ~> str "center";
                    "ml" ~> num 2 ] ]
                [ Elem "IconButton"
                    [ "onClick" ~> VFun (SetDarkMode (negb darkMode));
                      "sx" ~> obj [ "ml" ~> num 1 ];
                      "color" ~> str "inherit" ]
                    [ if darkMode then Elem "IoSunny" [] [] else Elem "IoMoon" [] [] ] ] ] ] ] ].

(** ===== HERO SECTION ===== *)
Definition heroSection (darkMode : bool) : Node :=
  Elem "Box" [ "sx" ~> styles darkMode .: "heroSection" ]
    [ Elem "Box" [ "sx" ~> styles darkMode .: "heroGradient" ]
        [ Elem "Box" [ "sx" ~> styles darkMode .: "innerGradient" ] [] ];
      Elem "Container"
        [ "maxWidth" ~> str "lg";
          "sx" ~> obj [ "position" ~> str "relative"; "zIndex" ~> num 1 ] ]
        [ Elem "MuiGrid"
            [ "container" ~> flag; "spacing" ~> num 6; "alignItems" ~> str "center" ]
            [ Elem "MuiGrid"
                [ "sx" ~> obj [ "mb" ~> obj [ "xs" ~> num 4; "md" ~> num 0 ] ] ]
                [ Elem "Typography"
                    [ "variant" ~> str "h2";
                      "component" ~> str "h1";
                      "fontWeight" ~> str "bold";
                      "gutterBottom" ~> flag;
                      "sx" ~> obj [
                        "fontSize" ~> obj [ "xs" ~> str "2.5rem"; "md" ~> str "3.5rem" ];
                        "lineHeight" ~> num 1.2 ] ]
                    [ Text "Hi, I'm Alex Shaw";
                      Elem "Typography"
                        [ "variant" ~> str "h2";
                          "component" ~> str "span";
                          "fontWeight" ~> str "bold";
                          "color" ~> str "primary";
                          "display" ~> str "block";
                          "sx" ~> obj [
                            "fontSize" ~> obj [ "xs" ~> str "2.5rem"; "md" ~> str "3.5rem" ];
                            "lineHeight" ~> num 1.2;
                            "background" ~> str "linear-gradient(to right, #3a86ff, #ff006e)";
                            "WebkitBackgroundClip" ~> str "text";
                            "WebkitTextFillColor" ~> str "transparent" ] ]
                        [ Text "Full Stack Developer" ] ];
                  Elem "Typography"
                    [ "variant" ~> str "h6";
                      "color" ~> str "text.secondary";
                      "sx" ~> obj [ "fontSize" ~> str "1.1rem"; "mt" ~> num 3; "mb" ~> num 4 ] ]
                    [ Text "I create sophisticated web applications that deliver exceptional user experiences with modern technologies and clean code." ];
                  Elem "Box"
                    [ "sx" ~> obj [ "display" ~> str "flex"; "gap" ~> num 2; "mt" ~> num 3 ] ]
                    [ Elem "Button"
                        [ "onClick" ~> VFun (ScrollToSection "contact");
                          "variant" ~> str "contained";
                          "color" ~> str "primary";
                          "sx" ~> obj [
                            "px" ~> num 4;
                            "py" ~> num 1.5;
                            "borderRadius" ~> num 2;
                            "background" ~> str "linear-gradient(to right, #3a86ff, #5e60ce)" ] ]
                        [ Text "Get in Touch" ];
                      Elem "Button"
                        [ "onClick" ~> VFun (ScrollToSection "projects");
                          "variant" ~> str "outlined";
                          "sx" ~> obj [ "px" ~> num 4; "py" ~> num 1.5; "borderRadius" ~> num 2 ] ]
                        [ Text "View Work" ] ] ];
              Elem "MuiGrid" [ "sx" ~> obj [ "textAlign" ~> str "center" ] ]
                [ Elem "Box"
                    [ "sx" ~> obj [
                        "position" ~> str "relative";
                        "width" ~> obj [ "xs" ~> num 280; "lg" ~> num 360 ];
                        "height" ~> obj [ "xs" ~> num 280; "lg" ~> num 360 ];
                        "borderRadius" ~> str "50%";
                        "overflow" ~> str "hidden";
                        "border" ~> styles darkMode .: "profileImage" .: "border";
                        "boxShadow" ~> styles darkMode .: "profileImage" .: "boxShadow";
                        "mx" ~> str "auto";
                        "&::before" ~> obj [
                          "content" ~> str two_dquotes;
                          "position" ~> str "absolute";
                          "inset" ~> num 0;
                          "borderRadius" ~> str "50%";
                          "padding" ~> str "6px";
                          "background" ~> str "linear-gradient(to right, #3a86ff, #ff006e)";
                          "WebkitMask" ~>
                            str "linear-gradient(#fff 0 0) content-box, linear-gradient(#fff 0 0)";
                          "WebkitMaskComposite" ~> str "xor";
                          "maskComposite" ~> str "exclude" ] ] ]
                    [] ] ] ] ].

(** [array.map((x, index) => ...)]: the callback sees each entry and its
    index, in array order. *)
Fixpoint mapi_from {A B : Type} (i : Z) (f : A -> Z -> B) (l : list A) : list B :=
  match l with
  | [] => []
  | x :: rest => f x i :: mapi_from (i + 1) f rest
  end.

Definition mapi {A B : Type} (f : A -> Z -> B) (l : list A) : list B :=
  mapi_from 0 f l.

(** ===== ABOUT SECTION ===== *)
Definition aboutSection (darkMode : bool) : Node :=
  Elem "Box"
    [ "component" ~> str "section";
      "id" ~> str "about";
      "sx" ~> obj [
        "py" ~> num 12;
        "bgcolor" ~> str (if darkMode then "#0a1929" else "#f8fafc");
        "position" ~> str "relative";
        "overflow" ~> str "hidden" ] ]
    [ Elem "Box" [ "sx" ~> styles darkMode .: "sectionShape" ] [];
      Elem "Container"
        [ "maxWidth" ~> str "md"; "sx" ~> styles darkMode .: "sectionContainer" ]
        [ Elem "Typography"
            [ "variant" ~> str "h3";
              "component" ~> str "h2";
              "sx" ~> styles darkMode .: "sectionTitle";
              "data-aos" ~> str "fade-up" ]
            [ Text "About Me" ];
          Elem "Divider" [ "sx" ~> styles darkMode .: "divider" ] [];
          Elem "Paper"
            [ "elevation" ~> num 0;
              "sx" ~> obj [
                "p" ~> num 4;
                "borderRadius" ~> num 4;
                "background" ~>
                  str (if darkMode then "rgba(19, 47, 76, 0.5)" else "rgba(255, 255, 255, 0.8)");
                "backdropFilter" ~> str "blur(10px)";
                "border" ~>
                  str (if darkMode then "1px solid rgba(255, 255, 255, 0.05)"
                       else "1px solid rgba(0, 0, 0, 0.05)") ] ]
            [ Elem "Typography"
                [ "variant" ~> str "body1";
                  "paragraph" ~> flag;
                  "sx" ~> obj [ "fontSize" ~> str "1.1rem"; "lineHeight" ~> num 1.7 ] ]
                [ Text "With over 5 years of experience in web development, I specialize in creating high-performance, responsive web applications using React, Next.js, and Node.js. My approach combines technical expertise with a strong focus on user experience and clean, maintainable code." ];
              Elem "Typography"
                [ "variant" ~> str "body1";
                  "paragraph" ~> flag;
                  "sx" ~> obj [ "fontSize" ~> str "1.1rem"; "lineHeight" ~> num 1.7 ] ]
                [ Text "Previously, I worked at XYZ Technologies where I led the frontend development team, improving application performance by 40% and implementing CI/CD pipelines that reduced deployment time by 65%. I'm passionate about sharing knowledge and have contributed to several open-source projects." ];
              Elem "Box"
                [ "sx" ~> obj [
                    "mt" ~> num 4; "display" ~> str "flex"; "gap" ~> num 2;
                    "justifyContent" ~> str "center" ] ]
                [ Elem "Button"
                    [ "variant" ~> str "contained";
                      "color" ~> str "primary";
                      "href" ~> str "/resume.pdf";
                      "target" ~> str "_blank";
                      "sx" ~> obj [
                        "background" ~> str "linear-gradient(to right, #3a86ff, #5e60ce)" ] ]
                    [ Text "Download Resume" ] ] ] ] ].

(** One technology tag of a project card. *)
Definition projectTag (darkMode : bool) (tech : string) (techIndex : Z) : Node :=
  Elem "Box"
    [ "key" ~> VNum (inject_Z techIndex);
      "component" ~> str "span";
      "sx" ~> obj [
        "px" ~> num 1.5;
        "py" ~> num 0.5;
        "bgcolor" ~> str (if darkMode then "rgba(58, 134, 255, 0.15)" else "#eef6ff");
        "color" ~> str (if darkMode then "#90caf9" else "#1565c0");
        "borderRadius" ~> num 10;
        "fontSize" ~> str "0.75rem";
        "fontWeight" ~> num 600 ] ]
    [ Text tech ].

(** The body of [projectsData.map((project, index) => ...)]. *)
Definition projectCard (darkMode : bool) (project : Project) (index : Z) : Node :=
  Elem "Card"
    [ "key" ~> VNum (inject_Z index);
      "sx" ~> styles darkMode .: "projectCard";
      "elevation" ~> (if darkMode then num 1 else num 2) ]
    [ Elem "CardContent" [ "sx" ~> obj [ "flexGrow" ~> num 1 ] ]
        [ Elem "Typography"
            [ "variant" ~> str "h5"; "component" ~> str "h3";
              "fontWeight" ~> str "bold"; "gutterBottom" ~> flag ]
            [ Text (title project) ];
          Elem "Typography"
            [ "variant" ~> str "body2"; "color" ~> str "text.secondary";
              "paragraph" ~> flag ]
            [ Text (description project) ];
          Elem "Box"
            [ "sx" ~> obj [
                "display" ~> str "flex"; "flexWrap" ~> str "wrap";
                "gap" ~> num 1; "mb" ~> num 2 ] ]
            (mapi (projectTag darkMode) (technologies project)) ];
      Elem "CardActions" [ "sx" ~> obj [ "p" ~> num 2; "pt" ~> num 0 ] ]
        [ Elem "Button"
            [ "size" ~> str "small";
              "href" ~> str (github project);
              "target" ~> str "_blank";
              "rel" ~> str "noopener noreferrer";
              "startIcon" ~> VNode (Elem "FaGithub" [] []) ]
            [ Text "Code" ];
          Elem "Button"
            [ "size" ~> str "small";
              "href" ~> str (demo project);
              "target" ~> str "_blank";
              "rel" ~> str "noopener noreferrer";
              "color" ~> str "primary" ]
            [ Text "Live Demo" ] ] ].

(** ===== PROJECTS SECTION ===== *)
Definition projectsSection (cat : Catalog) (darkMode : bool) : Node :=
  Elem "Box"
    [ "component" ~> str "section";
      "id" ~> str "projects";
      "sx" ~> obj [
        "py" ~> num 12;
        "bgcolor" ~> str (if darkMode then "#132f4c" else "#ffffff");
        "position" ~> str "relative";
        "overflow" ~> str "hidden" ] ]
    [ Elem "Box"
        [ "sx" ~> spread (styles darkMode .: "sectionShape")
                    [ "left" ~> num (-100); "bottom" ~> num (-150) ] ]
        [];
      Elem "Container"
        [ "maxWidth" ~> str "md"; "sx" ~> styles darkMode .: "sectionContainer" ]
        [ Elem "Typography"
            [ "variant" ~> str "h3"; "component" ~> str "h2";
              "sx" ~> styles darkMode .: "sectionTitle" ]
            [ Text "Featured Projects" ];
          Elem "Divider" [ "sx" ~> styles darkMode .: "divider" ] [];
          Elem "Box"
            [ "sx" ~> obj [
                "display" ~> str "flex"; "flexDirection" ~> str "column";
                "gap" ~> num 4 ] ]
            (mapi (projectCard darkMode) (projects cat)) ] ].

(** The heading of a skills column; the three headings differ in their text
    and in one property of the bar drawn before it. *)
Definition skillsHeading (barProperty barValue text : string) : Node :=
  Elem "Typography"
    [ "variant" ~> str "h5";
      "component" ~> str "h3";
      "fontWeight" ~> str "600";
      "gutterBottom" ~> flag;
      "sx" ~> obj [
        "mb" ~> num 3;
        "display" ~> str "flex";
        "alignItems" ~> str "center";
        "&::before" ~> obj [
          "content" ~> str two_dquotes;
          "display" ~> str "inline-block";
          "width" ~> num 4;
          "height" ~> num 24;
          "borderRadius" ~> num 2;
          barProperty ~> str barValue;
          "marginRight" ~> num 2 ] ] ]
    [ Text text ].

(** The body of [frontendSkills.map] and of [backendSkills.map]: the two
    callbacks are the same text.  Only [skill.name] is read. *)
Definition skillRow (darkMode : bool) (skill : Skill) (index : Z) : Node :=
  Elem "Box" [ "key" ~> VNum (inject_Z index); "sx" ~> obj [ "mb" ~> num 4 ] ]
    [ Elem "Box" [ "sx" ~> styles darkMode .: "skillLabel" ]
        [ Elem "Typography"
            [ "variant" ~> str "body1"; "color" ~> str "text.primary";
              "fontWeight" ~> num 500 ]
            [ Text (name skill) ] ] ].

(** The body of [otherTechnologies.map((tech) => ...)]. *)
Definition techTag (darkMode : bool) (tech : string) : Node :=
  Elem "Box"
    [ "key" ~> str tech;
      "component" ~> str "span";
      "sx" ~> spread (styles darkMode .: "techTag")
                [ "transition" ~> str "all 0.2s ease";
                  "&:hover" ~> obj [
                    "transform" ~> str "translateY(-3px)";
                    "boxShadow" ~> str "0 4px 12px rgba(0,0,0,0.1)";
                    "color" ~> theme darkMode .: "palette" .: "primary" .: "main";
                    "borderColor" ~> theme darkMode .: "palette" .: "primary" .: "main" ] ] ]
    [ Text tech ].

(** ===== SKILLS SECTION ===== *)
Definition skillsSection (cat : Catalog) (darkMode : bool) : Node :=
  Elem "Box"
    [ "component" ~> str "section";
      "id" ~> str "skills";
      "sx" ~> obj [
        "py" ~> num 12;
        "bgcolor" ~> str (if darkMode then "#0a1929" else "#f8fafc");
        "position" ~> str "relative";
        "overflow" ~> str "hidden" ] ]
    [ Elem "Box"
        [ "sx" ~> spread (styles darkMode .: "sectionShape")
                    [ "top" ~> num (-100); "right" ~> str "30%" ] ]
        [];
      Elem "Container"
        [ "maxWidth" ~> str "md"; "sx" ~> styles darkMode .: "sectionContainer" ]
        [ Elem "Typography"
            [ "variant" ~> str "h3"; "component" ~> str "h2";
              "sx" ~> styles darkMode .: "sectionTitle" ]
            [ Text "Technical Skills" ];
          Elem "Divider" [ "sx" ~> styles darkMode .: "divider" ] [];
          Elem "Paper"
            [ "elevation" ~> (if darkMode then num 1 else num 3);
              "sx" ~> obj [
                "p" ~> num 4;
                "borderRadius" ~> num 4;
                "background" ~>
                  str (if darkMode then "rgba(19, 47, 76, 0.5)" else "rgba(255, 255, 255, 0.8)");
                "backdropFilter" ~> str "blur(10px)";
                "border" ~>
                  str (if darkMode then "1px solid rgba(255, 255, 255, 0.05)"
                       else "1px solid rgba(0, 0, 0, 0.05)") ] ]
            [ Elem "MuiGrid" [ "container" ~> flag; "spacing" ~> num 6 ]
                [ Elem "MuiGrid" []
                    [ skillsHeading "backgroundColor" "#3a86ff" "Frontend Development";
                      Elem "Box" [ "sx" ~> obj [ "mb" ~> num 5 ] ]
                        (mapi (skillRow darkMode) (frontend cat)) ];
                  Elem "MuiGrid" []
                    [ skillsHeading "backgroundColor" "#ff006e" "Backend Development";
                      Elem "Box" [ "sx" ~> obj [ "mb" ~> num 5 ] ]
                        (mapi (skillRow darkMode) (backend cat)) ] ];
              Elem "Box" [ "sx" ~> obj [ "mt" ~> num 6 ] ]
                [ skillsHeading "background"
                    "linear-gradient(to bottom, #3a86ff, #ff006e)" "Other Technologies";
                  Elem "Box"
                    [ "sx" ~> obj [
                        "display" ~> str "flex"; "flexWrap" ~> str "wrap";
                        "gap" ~> num 1.5 ] ]
                    (map (techTag darkMode) (others cat)) ] ] ] ].

(** A social link of the contact column (the three links differ in address,
    hover colour and icon). *)
Definition contactSocialLink (href hoverColor icon : string) : Node :=
  Elem "IconButton"
    [ "href" ~> str href;
      "target" ~> str "_blank";
      "rel" ~> str "noopener noreferrer";
      "color" ~> str "inherit";
      "size" ~> str "small";
      "sx" ~> obj [
        "transition" ~> str "transform 0.2s, color 0.2s";
        "&:hover" ~> obj [
          "color" ~> str hoverColor;
          "transform" ~> str "translateY(-3px)" ] ] ]
    [ Elem icon [] [] ].

(** The contact form: three text fields and a submit button.  No element of
    it is given a handler. *)
Definition contactForm (darkMode : bool) : Node :=
  Elem "Box" [ "component" ~> str "form"; "sx" ~> styles darkMode .: "contactForm" ]
    [ Elem "TextField"
        [ "fullWidth" ~> flag;
          "label" ~> str "Name";
          "variant" ~> str "outlined";
          "placeholder" ~> str "Your name";
          "id" ~> str "name";
          "InputProps" ~> obj [ "sx" ~> obj [ "borderRadius" ~> num 2 ] ] ]
        [];
      Elem "TextField"
        [ "fullWidth" ~> flag;
          "label" ~> str "Email";
          "variant" ~> str "outlined";
          "placeholder" ~> str "your.email@example.com";
          "id" ~> str "email";
          "type" ~> str "email";
          "InputProps" ~> obj [ "sx" ~> obj [ "borderRadius" ~> num 2 ] ] ]
        [];
      Elem "TextField"
        [ "fullWidth" ~> flag;
          "label" ~> str "Message";
          "variant" ~> str "outlined";
          "placeholder" ~> str "Your message...";
          "id" ~> str "message";
          "multiline" ~> flag;
          "rows" ~> num 4;
          "InputProps" ~> obj [ "sx" ~> obj [ "borderRadius" ~> num 2 ] ] ]
        [];
      Elem "Button"
        [ "type" ~> str "submit";
          "variant" ~> str "contained";
          "color" ~> str "primary";
          "fullWidth" ~> flag;
          "size" ~> str "large";
          "sx" ~> obj [
            "py" ~> num 1.5;
            "borderRadius" ~> num 2;
            "background" ~> str "linear-gradient(to right, #3a86ff, #5e60ce)";
            "boxShadow" ~> str "0 4px 14px rgba(58, 134, 255, 0.4)";
            "transition" ~> str "all 0.2s ease";
            "&:hover" ~> obj [
              "boxShadow" ~> str "0 6px 20px rgba(58, 134, 255, 0.6)";
              "transform" ~> str "translateY(-2px)" ] ] ]
        [ Text "Send Message" ] ].

(** ===== CONTACT SECTION ===== *)
Definition contactSection (darkMode : bool) : Node :=
  Elem "Box"
    [ "component" ~> str "section";
      "id" ~> str "contact";
      "sx" ~> obj [
        "py" ~> num 12;
        "bgcolor" ~> str (if darkMode then "#132f4c" else "#ffffff");
        "position" ~> str "relative";
        "overflow" ~> str "hidden" ] ]
    [ Elem "Box"
        [ "sx" ~> spread (styles darkMode .: "sectionShape")
                    [ "bottom" ~> str "30%"; "left" ~> num (-100) ] ]
        [];
      Elem "Container"
        [ "maxWidth" ~> str "md"; "sx" ~> styles darkMode .: "sectionContainer" ]
        [ Elem "Typography"
            [ "variant" ~> str "h3"; "component" ~> str "h2";
              "sx" ~> styles darkMode .: "sectionTitle" ]
            [ Text "Get In Touch" ];
          Elem "Divider" [ "sx" ~> styles darkMode .: "divider" ] [];
          Elem "MuiGrid" [ "container" ~> flag; "spacing" ~> num 4 ]
            [ Elem "MuiGrid" []
                [ Elem "Typography"
                    [ "variant" ~> str "body1";
                      "color" ~> str "text.secondary";
                      "paragraph" ~> flag;
                      "sx" ~> obj [ "mb" ~> num 3 ] ]
                    [ Text "I'm currently looking for new opportunities and freelance projects. If you'd like to discuss a potential collaboration or just want to say hi, feel free to reach out!" ];
                  Elem "Box"
                    [ "sx" ~> obj [
                        "display" ~> str "flex"; "flexDirection" ~> str "column";
                        "gap" ~> num 2 ] ]
                    [ Elem "Link"
                        [ "href" ~> str "mailto:john.doe@example.com";
                          "color" ~> str "inherit";
                          "underline" ~> str "none";
                          "sx" ~> obj [
                            "display" ~> str "flex";
                            "alignItems" ~> str "center";
                            "transition" ~> str "color 0.2s, transform 0.2s";
                            "&:hover" ~> obj [
                              "color" ~> str "#3a86ff";
                              "transform" ~> str "translateY(-2px)" ] ] ]
                        [ Elem "HiOutlineMail"
                            [ "style" ~> obj [ "marginRight" ~> str "0.5rem" ] ] [];
                          Text "john.doe@example.com" ];
                      Elem "Box"
                        [ "sx" ~> obj [ "display" ~> str "flex"; "gap" ~> num 2 ] ]
                        [ contactSocialLink "https://github.com/johndoe"
                            (if darkMode then "#f0f6fc" else "#24292e") "FaGithub";
                          contactSocialLink "https://linkedin.com/in/johndoe"
                            "#0a66c2" "FaLinkedinIn";
                          contactSocialLink "https://twitter.com/johndoe"
                            "#1da1f2" "FaTwitter" ] ] ];
              Elem "MuiGrid" []
                [ Elem "Paper"
                    [ "elevation" ~> (if darkMode then num 1 else num 3);
                      "sx" ~> obj [
                        "p" ~> num 4;
                        "borderRadius" ~> num 3;
                        "height" ~> str "100%";
                        "backgroundColor" ~>
                          str (if darkMode then "rgba(19, 47, 76, 0.5)"
                               else "rgba(255, 255, 255, 0.8)");
                        "backdropFilter" ~> str "blur(10px)";
                        "border" ~>
                          str (if darkMode then "1px solid rgba(255, 255, 255, 0.05)"
                               else "1px solid rgba(0, 0, 0, 0.05)") ] ]
                    [ contactForm darkMode ] ] ] ] ].

(** ===== FOOTER =====  The copyright line shows [new Date().getFullYear()],
    here [year]. *)
Definition footer (darkMode : bool) (year : Z) : Node :=
  Elem "Box"
    [ "component" ~> str "footer";
      "sx" ~> obj [
        "py" ~> num 4;
        "bgcolor" ~> str (if darkMode then "#0a1929" else "#f8fafc");
        "borderTop" ~> num 1;
        "borderColor" ~>
          str (if darkMode then "rgba(255, 255, 255, 0.05)" else "rgba(0, 0, 0, 0.05)") ] ]
    [ Elem "Container" [ "maxWidth" ~> str "lg" ]
        [ Elem "Box"
            [ "sx" ~> obj [
                "display" ~> str "flex";
                "flexDirection" ~> obj [ "xs" ~> str "column"; "md" ~> str "row" ];
                "justifyContent" ~> str "space-between";
                "alignItems" ~> str "center" ] ]
            [ Elem "Typography"
                [ "variant" ~> str "body2"; "color" ~> str "text.secondary" ]
                [ Text "© "; Num year; Text " John Doe. All rights reserved." ];
              Elem "Typography"
                [ "variant" ~> str "body2"; "color" ~> str "text.secondary";
                  "sx" ~> obj [ "mt" ~> obj [ "xs" ~> num 2; "md" ~> num 0 ] ] ]
                [ Text "Designed & Built with ❤️ using React & Material UI" ] ] ] ].

(** The tree returned by the component, for given catalog arrays, value of
    the [darkMode] state and year read from the clock. *)
Definition HomeView (cat : Catalog) (darkMode : bool) (year : Z) : Node :=
  Elem "ThemeProvider" [ "theme" ~> theme darkMode ]
    [ Elem "CssBaseline" [] [];
      Text " ";
      Elem "Box" [ "sx" ~> styles darkMode .: "gradientBg" ]
        [ navigationBar darkMode;
          heroSection darkMode;
          aboutSection darkMode;
          projectsSection cat darkMode;
          skillsSection cat darkMode;
          contactSection darkMode;
          footer darkMode year ] ].

(* ===================================================================== *)
(** ** The browser window, the hook state and the component *)
(* ===================================================================== *)

(** An element of the live document, as far as [scrollToSection] looks at
    it. *)
Record Element : Type := mkElement { id : string; offsetTop : Z }.

(** The argument of [window.scrollTo]. *)
Record ScrollToOptions : Type := mkScroll { behavior : string; top : Z }.

(** The environment of the component: the elements of the document in tree
    order, the scroll requests issued so far (latest first), the media query
    [(prefers-color-scheme: dark)] and the clock. *)
Record Window : Type := mkWindow {
  document : list Element;
  scrollRequests : list ScrollToOptions;
  prefersDark : bool;
  clock : Date
}.

(** [document.getElementById]: the first element with that id, or null. *)
Definition getElementById (w : Window) (elementId : string) : option Element :=
  find (fun e => String.eqb (id e) elementId) (document w).

(** [element.offsetTop]; reading a property of null is a TypeError. *)
Definition readOffsetTop (element : option Element) : Completion Z :=
  match element with
  | Some e => Normal (offsetTop e)
  | None => Throw "TypeError: Cannot read properties of null (reading 'offsetTop')"
  end.

(** [window.scrollTo(options)]. *)
Definition scrollTo (options : ScrollToOptions) (w : Window) : Window :=
  mkWindow (document w) (options :: scrollRequests w) (prefersDark w) (clock w).

(** [if (element)]: an element is truthy, null is not. *)
Definition truthy (element : option Element) : bool :=
  match element with Some _ => true | None => false end.

Definition scrollToSection (elementId : string) (w : Window) : Completion Window :=
  let element := getElementById w elementId in
  if truthy element then
    offset <- readOffsetTop element ;;
    Normal (scrollTo (mkScroll "smooth" (offset - 64)) w)
  else Normal w.

(** The state React keeps for the component between renders: the value of
    [useState], and the dependency array of the last run of the effect
    ([None] before the first run). *)
Record Hooks : Type := mkHooks {
  darkMode : bool;
  effectDeps : option bool
}.

(** [useState(true)]. *)
Definition initialHooks : Hooks := mkHooks true None.

(** [setDarkMode(value)]. *)
Definition setDarkMode (value : bool) (h : Hooks) : Hooks :=
  mkHooks value (effectDeps h).

(** One call of the component: the tree it returns. *)
Definition Home (h : Hooks) (w : Window) : Node :=
  HomeView catalog (darkMode h) (getFullYear (clock w)).

(** [useEffect(() => { setDarkMode(prefersDarkMode) }, [prefersDarkMode])],
    run after a render in which the media query gave [prefersDark w]: the
    effect runs after the first render and after every render whose
    dependency differs from that of the last run. *)
Definition runEffect (h : Hooks) (w : Window) : Hooks :=
  let prefersDarkMode := prefersDark w in
  let depsChanged :=
    match effectDeps h with
    | Some dep => negb (Bool.eqb dep prefersDarkMode)
    | None => true
    end in
  if depsChanged
  then mkHooks (darkMode (setDarkMode prefersDarkMode h)) (Some prefersDarkMode)
  else h.

(* ===================================================================== *)
(** ** Reading the tree *)
(* ===================================================================== *)

Definition component_of (n : Node) : string :=
  match n with Elem c _ _ => c | _ => EmptyString end.

Definition children_of (n : Node) : list Node :=
  match n with Elem _ _ ch => ch | _ => [] end.

(** The prop [k] of an element ([undefined] when it is not given). *)
Definition prop (k : string) (n : Node) : Val :=
  match n with Elem _ ps _ => lookup k ps | _ => VUndef end.

Definition isStr (s : string) (v : Val) : bool :=
  match v with VStr s' => String.eqb s s' | _ => false end.

Definition isComponent (c : string) (n : Node) : bool :=
  match n with Elem c' _ _ => String.eqb c c' | _ => false end.

(** The elements of a tree that satisfy [p], in document order. *)
Fixpoint select (p : Node -> bool) (n : Node) : list Node :=
  match n with
  | Elem _ _ ch => ((if p n then [n] else []) ++ flat_map (select p) ch)%list
  | _ => []
  end.

(** The strings shown by a tree, in document order. *)
Fixpoint texts (n : Node) : list string :=
  match n with
  | Text s => [s]
  | Num _ => []
  | Elem _ _ ch => flat_map texts ch
  end.

(** The numbers shown by a tree, in document order. *)
Fixpoint numbers (n : Node) : list Z :=
  match n with
  | Text _ => []
  | Num z => [z]
  | Elem _ _ ch => flat_map numbers ch
  end.

Definition textContent (n : Node) : string :=
  String.concat EmptyString (texts n).

Definition isCard : Node -> bool := isComponent "Card".

Definition isSpan (n : Node) : bool :=
  isComponent "Box" n && isStr "span" (prop "component" n).

(** A tag of the other technologies: a span whose key is the tag itself. *)
Definition isTechTag (n : Node) : bool :=
  isSpan n && match prop "key" n with VStr _ => true | _ => false end.

Definition isHeading5 (n : Node) : bool :=
  isComponent "Typography" n && isStr "h5" (prop "variant" n).

Definition cardTitle (card : Node) : string :=
  String.concat EmptyString (map textContent (select isHeading5 card)).

Definition cardTags (card : Node) : list string :=
  map textContent (select isSpan card).

Definition isForm (n : Node) : bool := isStr "form" (prop "component" n).

Definition isTextField : Node -> bool := isComponent "TextField".

Definition isSubmitButton (n : Node) : bool :=
  isComponent "Button" n && isStr "submit" (prop "type" n).

(** The button that shows the sun or the moon. *)
Definition isThemeToggle (n : Node) : bool :=
  isComponent "IconButton" n &&
  existsb (fun c => isComponent "IoSunny" c || isComponent "IoMoon" c) (children_of n).

Definition isButtonLabelled (label : string) (n : Node) : bool :=
  isComponent "Button" n &&
  match texts n with [s] => String.eqb s label | _ => false end.

(* ===================================================================== *)
(** ** Events *)
(* ===================================================================== *)

(** The handler an element has for an event prop ([onClick], [onSubmit]). *)
Definition handler (eventProp : string) (n : Node) : list Action :=
  match prop eventProp n with
  | VFun a => [a]
  | _ => []
  end.

(** An event on the first element satisfying [isTarget] bubbles from that
    element to the root; the result lists the handlers met on the way, in the
    order they are called, or is [None] when the tree has no such element. *)
Fixpoint bubble (eventProp : string) (isTarget : Node -> bool) (n : Node)
  : option (list Action) :=
  match n with
  | Elem _ _ ch =>
      if isTarget n then Some (handler eventProp n)
      else
        match
          (fix first (l : list Node) : option (list Action) :=
             match l with
             | [] => None
             | x :: rest =>
                 match bubble eventProp isTarget x with
                 | Some acts => Some acts
                 | None => first rest
                 end
             end) ch
        with
        | Some acts => Some (acts ++ handler eventProp n)%list
        | None => None
        end
  | _ => None
  end.

(** The mounted page: the hook state of [Home] and its window. *)
Record Page : Type := mkPage { hooks : Hooks; window : Window }.

(** Calling a handler. *)
Definition perform (a : Action) (p : Page) : Completion Page :=
  match a with
  | ScrollToSection elementId =>
      w <- scrollToSection elementId (window p) ;;
      Normal (mkPage (hooks p) w)
  | SetDarkMode value =>
      Normal (mkPage (setDarkMode value (hooks p)) (window p))
  end.

Fixpoint performAll (acts : list Action) (p : Page) : Completion Page :=
  match acts with
  | [] => Normal p
  | a :: rest => p' <- perform a p ;; performAll rest p'
  end.

(** A render followed by its effects. *)
Definition commit (p : Page) : Page :=
  mkPage (runEffect (hooks p) (window p)) (window p).

(** Mounting: the first render uses [initialHooks]; its effects run after
    it. *)
Definition mountPage (w : Window) : Page := commit (mkPage initialHooks w).

(** An event on the rendered tree: the handlers run; if the state changed,
    the component renders again. *)
Definition fire (eventProp : string) (isTarget : Node -> bool) (p : Page)
  : Completion Page :=
  match bubble eventProp isTarget (Home (hooks p) (window p)) with
  | Some acts =>
      p' <- performAll acts p ;;
      Normal (if Bool.eqb (darkMode (hooks p')) (darkMode (hooks p))
              then p' else commit p')
  | None => Normal p
  end.

Definition setPrefers (b : bool) (w : Window) : Window :=
  mkWindow (document w) (scrollRequests w) b (clock w).

Definition setClock (d : Date) (w : Window) : Window :=
  mkWindow (document w) (scrollRequests w) (prefersDark w) d.

(** What can happen to the page once it is mounted. *)
Inductive Event : Type :=
| PreferenceChanged (prefers : bool)
| ClickToggle
| ClickButton (label : string)
| SubmitContactForm
| ClockAdvanced (now : Date).

Definition step (e : Event) (p : Page) : Completion Page :=
  match e with
  | PreferenceChanged b =>
      (* [useMediaQuery] gives the new value: a render, then its effects *)
      Normal (commit (mkPage (hooks p) (setPrefers b (window p))))
  | ClickToggle => fire "onClick" isThemeToggle p
  | ClickButton label => fire "onClick" (isButtonLabelled label) p
  | SubmitContactForm =>
      p' <- fire "onClick" isSubmitButton p ;;
      fire "onSubmit" isForm p'
  | ClockAdvanced d => Normal (mkPage (hooks p) (setClock d (window p)))
  end.

Fixpoint run (events : list Event) (p : Page) : Completion Page :=
  match events with
  | [] => Normal p
  | e :: rest => p' <- step e p ;; run rest p'
  end.

(** [v.k1.k2...kn]. *)
Definition getPath (path : list string) (v : Val) : Val :=
  fold_left (fun o k => get k o) path v.

(** Where the theme configuration puts the background and surface colours,
    and the two accent colours. *)
Definition paletteBackgrounds : list (list string) :=
  [ ["palette"; "background"; "default"]; ["palette"; "background"; "paper"] ].

Definition paletteAccents : list (list string) :=
  [ ["palette"; "primary"; "main"]; ["palette"; "secondary"; "main"] ].

(** The entries of [styles] that hold a background, surface, border or text
    colour chosen by [darkMode]. *)
Definition styleColours : list (list string) :=
  [ ["gradientBg"; "background"];
    ["navBar"; "backgroundColor"];
    ["navBar"; "boxShadow"];
    ["heroSection"; "backgroundColor"];
    ["skillProgress"; "backgroundColor"];
    ["techTag"; "backgroundColor"];
    ["techTag"; "border"];
    ["techTag"; "color"];
    ["socialIcon"; "color"];
    ["profileImage"; "border"];
    ["profileImage"; "boxShadow"] ].

(** The [bgcolor] of the four sections and of the footer. *)
Definition sectionBackgrounds (d : bool) : list Val :=
  map (fun section => prop "sx" section .: "bgcolor")
    [ aboutSection d; projectsSection catalog d; skillsSection catalog d;
      contactSection d; footer d 0 ].

(** An element that has a handler for an event prop. *)
Definition hasHandler (eventProp : string) (n : Node) : bool :=
  match handler eventProp n with [] => false | _ :: _ => true end.

(** The catalog with other proficiency values. *)
Definition withValues (v : Z) (cat : Catalog) : Catalog :=
  mkCatalog (projects cat)
    (map (fun s => mkSkill (name s) v) (frontend cat))
    (map (fun s => mkSkill (name s) v) (backend cat))
    (others cat).

(** The ids given to elements of the tree, in document order. *)
Definition hasId (n : Node) : bool :=
  match prop "id" n with VStr _ => true | _ => false end.

Definition idOf (n : Node) : string :=
  match prop "id" n with VStr s => s | _ => EmptyString end.

Definition ids (tree : Node) : list string := map idOf (select hasId tree).

(** The ids that the [onClick] handlers of the tree scroll to, in document
    order. *)
Definition scrollTargetOf (n : Node) : list string :=
  match handler "onClick" n with
  | [ScrollToSection elementId] => [elementId]
  | _ => []
  end.

Definition scrollTargets (tree : Node) : list string :=
  flat_map scrollTargetOf (select (hasHandler "onClick") tree).

(** The ids of the four sections. *)
Definition sectionIds : list string := ["about"; "projects"; "skills"; "contact"].

(** The buttons that scroll, by label, with the id each one passes to
    [scrollToSection]. *)
Definition navButtons : list (string * string) :=
  [ ("About", "about"); ("Projects", "projects"); ("Skills", "skills");
    ("Contact", "contact"); ("Get in Touch", "contact"); ("View Work", "projects") ].

Definition isScroll (a : Action) : bool :=
  match a with
  | ScrollToSection elementId => existsb (String.eqb elementId) sectionIds
  | SetDarkMode _ => false
  end.

(** The handlers met by an event are all calls of [scrollToSection] on a
    section id (or there are none). *)
Definition onlyScrolls (met : option (list Action)) : bool :=
  match met with
  | Some acts => forallb isScroll acts
  | None => true
  end.

(** The theme seen from outside: the mode and the last value of the media
    query, and what each event does to them. *)
Definition themeStep (e : Event) (s : bool * bool) : bool * bool :=
  match e with
  | PreferenceChanged b => if Bool.eqb b (snd s) then s else (b, b)
  | ClickToggle => (negb (fst s), snd s)
  | _ => s
  end.

Definition themeOf (p : Page) : bool * bool :=
  (darkMode (hooks p), prefersDark (window p)).

(** A scroll request as [scrollToSection] issues them on a document: smooth,
    and 64 above the top of an element that carries a section id. *)
Definition sectionRequest (doc : list Element) (r : ScrollToOptions) : Prop :=
  behavior r = "smooth"
  /\ exists e, In e doc /\ In (id e) sectionIds /\ top r = offsetTop e - 64.


Definition isButton : Node -> bool := isComponent "Button".

(** The addresses of the buttons of a card. *)
Definition cardLinks (card : Node) : list Val :=
  map (prop "href") (select isButton card).

(** What a project shows: every field but [image]. *)
Definition projectShown (project : Project)
  : string * string * list string * string * string :=
  (title project, description project, technologies project,
   github project, demo project).

(** The catalog with another image path in every project. *)
Definition withImages (path : string) (cat : Catalog) : Catalog :=
  mkCatalog
    (map (fun p => mkProject (title p) (description p) path (technologies p)
                     (github p) (demo p)) (projects cat))
    (frontend cat) (backend cat) (others cat).

(** The last binding of [k] in a list of properties. *)
Definition lastBinding (k : string) (more : list (string * Val)) : option Val :=
  fold_left (fun found kv => if String.eqb k (fst kv) then Some (snd kv) else found)
    more None.

(** The keys of the children of a list. *)
Definition keysOf (nodes : list Node) : list Val := map (prop "key") nodes.

(** The indices [i, i+1, ...] of an array of the length of [l]. *)
Fixpoint indices_from {A : Type} (i : Z) (l : list A) : list Z :=
  match l with
  | [] => []
  | _ :: rest => i :: indices_from (i + 1) rest
  end.

Definition setDocument (doc : list Element) (w : Window) : Window :=
  mkWindow doc (scrollRequests w) (prefersDark w) (clock w).

(** [w'] is [w] after some calls of [scrollToSection]: the same document,
    and new requests, all of them section requests, before the old ones. *)
Definition scrolledFrom (w w' : Window) : Prop :=
  document w' = document w
  /\ exists new, scrollRequests w' = (new ++ scrollRequests w)%list
                 /\ Forall (sectionRequest (document w)) new.

(** The effect has run for the current value of the media query. *)
Definition inSync (p : Page) : Prop :=
  effectDeps (hooks p) = Some (prefersDark (window p)).

(** A page reached from a mount by a sequence of events. *)
Definition reachable (p : Page) : Prop :=
  exists w events, run events (mountPage w) = Normal p.

(* ===================================================================== *)
(** ** Section navigation *)
(* ===================================================================== *)

Lemma scrollToSection_cases (elementId : string) (w : Window) :
  scrollToSection elementId w =
    match getElementById w elementId with
    | Some e => Normal (scrollTo (mkScroll "smooth" (offsetTop e - 64)) w)
    | None => Normal w
    end.
Proof.
  unfold scrollToSection.
  destruct (getElementById w elementId) as [e|]; reflexivity.
Qed.

Lemma scrollToSection_returns (elementId : string) (w : Window) :
  exists w', scrollToSection elementId w = Normal w'
             /\ prefersDark w' = prefersDark w
             /\ clock w' = clock w
             /\ document w' = document w.
Proof.
  rewrite scrollToSection_cases.
  destruct (getElementById w elementId) as [e|]; eexists; split;
    try reflexivity; auto.
Qed.

(* ===================================================================== *)
(** ** The effect and the reachable pages *)
(* ===================================================================== *)

Lemma runEffect_first (h : Hooks) (w : Window) :
  effectDeps h = None ->
  runEffect h w = mkHooks (prefersDark w) (Some (prefersDark w)).
Proof. intros E. unfold runEffect. rewrite E. reflexivity. Qed.

Lemma runEffect_changed (h : Hooks) (w : Window) (dep : bool) :
  effectDeps h = Some dep -> dep <> prefersDark w ->
  runEffect h w = mkHooks (prefersDark w) (Some (prefersDark w)).
Proof.
  intros E D. unfold runEffect. rewrite E.
  destruct (Bool.eqb dep (prefersDark w)) eqn:B.
  - apply Bool.eqb_prop in B. contradiction.
  - reflexivity.
Qed.

Lemma runEffect_same (h : Hooks) (w : Window) :
  effectDeps h = Some (prefersDark w) -> runEffect h w = h.
Proof.
  intros E. unfold runEffect. rewrite E, Bool.eqb_reflx. reflexivity.
Qed.

Lemma commit_inSync (p : Page) : inSync (commit p).
Proof.
  unfold inSync, commit, runEffect; simpl.
  destruct (effectDeps (hooks p)) as [dep|] eqn:E; simpl; auto.
  destruct (Bool.eqb dep (prefersDark (window p))) eqn:B; simpl; auto.
  apply Bool.eqb_prop in B. congruence.
Qed.

Lemma commit_of_inSync (p : Page) : inSync p -> commit p = p.
Proof.
  unfold inSync, commit. intros E. rewrite (runEffect_same _ _ E).
  destruct p; reflexivity.
Qed.

Lemma perform_returns (a : Action) (p : Page) :
  exists p', perform a p = Normal p'
             /\ effectDeps (hooks p') = effectDeps (hooks p)
             /\ prefersDark (window p') = prefersDark (window p).
Proof.
  destruct a as [elementId | value]; simpl.
  - destruct (scrollToSection_returns elementId (window p))
      as (w' & -> & Hp & _). simpl. eauto.
  - eauto.
Qed.

Lemma performAll_returns (acts : list Action) :
  forall p, exists p', performAll acts p = Normal p'
                       /\ effectDeps (hooks p') = effectDeps (hooks p)
                       /\ prefersDark (window p') = prefersDark (window p).
Proof.
  induction acts as [|a rest IH]; intros p; simpl.
  - eauto.
  - destruct (perform_returns a p) as (p1 & -> & E1 & W1). simpl.
    destruct (IH p1) as (p2 & -> & E2 & W2).
    exists p2. repeat split; congruence.
Qed.

Lemma fire_returns (eventProp : string) (isTarget : Node -> bool) (p : Page) :
  inSync p -> exists p', fire eventProp isTarget p = Normal p' /\ inSync p'.
Proof.
  intros S. unfold fire.
  destruct (bubble eventProp isTarget (Home (hooks p) (window p))) as [acts|].
  - destruct (performAll_returns acts p) as (p1 & -> & E1 & W1). simpl.
    eexists; split; [reflexivity|].
    destruct (Bool.eqb (darkMode (hooks p1)) (darkMode (hooks p))).
    + unfold inSync in *. congruence.
    + apply commit_inSync.
  - eauto.
Qed.

Lemma step_returns (e : Event) (p : Page) :
  inSync p -> exists p', step e p = Normal p' /\ inSync p'.
Proof.
  intros S. destruct e as [b| |label| |d]; simpl.
  - eexists; split; [reflexivity | apply commit_inSync].
  - apply fire_returns; assumption.
  - apply fire_returns; assumption.
  - destruct (fire_returns "onClick" isSubmitButton p S) as (p1 & -> & S1).
    simpl. apply fire_returns; assumption.
  - eexists; split; [reflexivity | exact S].
Qed.

Lemma run_returns (events : list Event) :
  forall p, inSync p -> exists p', run events p = Normal p' /\ inSync p'.
Proof.
  induction events as [|e rest IH]; intros p S; simpl.
  - eauto.
  - destruct (step_returns e p S) as (p1 & -> & S1). simpl. auto.
Qed.

Lemma reachable_inSync (p : Page) : reachable p -> inSync p.
Proof.
  intros (w & events & R).
  destruct (run_returns events (mountPage w) (commit_inSync _)) as (p' & R' & S).
  congruence.
Qed.

(** C1 — On initialization the theme mode is set to the environment's
    prefers-dark signal (by the effect that follows the first render), and
    every later change of the signal overwrites the mode with the new value,
    whatever the user toggled in between: for a page [p] reached from a mount
    by any events, a change of the signal to a value [b] other than the
    current one leaves the mode equal to [b]. *)
Theorem preference_signal_overwrites_mode
    (w : Window) (events : list Event) (p : Page) (b : bool) :
  run events (mountPage w) = Normal p ->
  b <> prefersDark (window p) ->
  darkMode (hooks (mountPage w)) = prefersDark w
  /\ exists p', step (PreferenceChanged b) p = Normal p'
                /\ darkMode (hooks p') = b
                /\ prefersDark (window p') = b.
Proof.
  intros R D. split.
  - reflexivity.
  - assert (S : inSync p) by (apply reachable_inSync; exists w, events; exact R).
    eexists; split; [reflexivity|]. simpl.
    rewrite (runEffect_changed (hooks p) (setPrefers b (window p))
               (prefersDark (window p))); simpl; auto.
Qed.

(** The signal is dark at load; the user toggles twice and follows a link;
    the signal then turns to light. *)
Lemma preference_signal_overwrites_mode_witness :
  let w := mkWindow [mkElement "about" 900] [] true (mkDate 1700000000000 0) in
  let events := [ClickToggle; ClickToggle; ClickButton "About"] in
  let p := mkPage (mkHooks true (Some true))
             (mkWindow [mkElement "about" 900] [mkScroll "smooth" 836] true
                (mkDate 1700000000000 0)) in
  darkMode (hooks (mountPage w)) = prefersDark w
  /\ exists p', step (PreferenceChanged false) p = Normal p'
                /\ darkMode (hooks p') = false
                /\ prefersDark (window p') = false.
Proof.
  intros w events p.
  apply (preference_signal_overwrites_mode w events p false).
  - vm_compute. reflexivity.
  - simpl. discriminate.
Defined.

(* ===================================================================== *)
(** ** The theme toggle *)
(* ===================================================================== *)

(** A click on the toggle meets one handler on its way to the root: the one
    of the button itself, which sets the opposite of the rendered mode. *)
Lemma toggle_handlers (cat : Catalog) (d : bool) (year : Z) :
  bubble "onClick" isThemeToggle (HomeView cat d year)
  = Some [SetDarkMode (negb d)].
Proof. destruct d; reflexivity. Qed.

Lemma click_toggle (p : Page) :
  inSync p ->
  step ClickToggle p
  = Normal (mkPage (setDarkMode (negb (darkMode (hooks p))) (hooks p)) (window p)).
Proof.
  intros S. simpl. unfold fire, Home. rewrite toggle_handlers. simpl.
  rewrite commit_of_inSync by exact S.
  destruct (darkMode (hooks p)); reflexivity.
Qed.

(** C2 — Toggling twice returns the mode and every derived style value to
    their original values: on a page reached from a mount, two clicks on the
    toggle give back the same page state, hence the same mode, theme, styles
    object and rendered tree; after one click the mode is the opposite one. *)
Theorem toggle_twice_restores (p : Page) :
  reachable p ->
  exists p1 p2,
    step ClickToggle p = Normal p1
    /\ step ClickToggle p1 = Normal p2
    /\ darkMode (hooks p1) = negb (darkMode (hooks p))
    /\ darkMode (hooks p2) = darkMode (hooks p)
    /\ theme (darkMode (hooks p2)) = theme (darkMode (hooks p))
    /\ styles (darkMode (hooks p2)) = styles (darkMode (hooks p))
    /\ Home (hooks p2) (window p2) = Home (hooks p) (window p)
    /\ p2 = p.
Proof.
  intros R. pose proof (reachable_inSync p R) as S.
  set (p1 := mkPage (setDarkMode (negb (darkMode (hooks p))) (hooks p)) (window p)).
  assert (S1 : inSync p1) by exact S.
  assert (E : mkPage (setDarkMode (negb (darkMode (hooks p1))) (hooks p1)) (window p1) = p).
  { destruct p as [[d deps] w]. unfold p1, setDarkMode. simpl.
    rewrite Bool.negb_involutive. reflexivity. }
  exists p1, p. repeat split.
  - apply click_toggle; exact S.
  - rewrite (click_toggle p1 S1). f_equal. exact E.
Qed.

Lemma toggle_twice_restores_witness :
  let p := mountPage (mkWindow [] [] false (mkDate 0 0)) in
  exists p1 p2,
    step ClickToggle p = Normal p1
    /\ step ClickToggle p1 = Normal p2
    /\ darkMode (hooks p1) = negb (darkMode (hooks p))
    /\ darkMode (hooks p2) = darkMode (hooks p)
    /\ theme (darkMode (hooks p2)) = theme (darkMode (hooks p))
    /\ styles (darkMode (hooks p2)) = styles (darkMode (hooks p))
    /\ Home (hooks p2) (window p2) = Home (hooks p) (window p)
    /\ p2 = p.
Proof.
  intros p. apply (toggle_twice_restores p).
  exists (mkWindow [] [] false (mkDate 0 0)), []. reflexivity.
Defined.

(** C3 — For an id that names an element of the document,
    [scrollToSection] returns normally having issued one request: a smooth
    scroll to the element's top position minus 64; nothing else of the window
    changes. *)
Theorem scrollToSection_present (w : Window) (elementId : string) (e : Element) :
  getElementById w elementId = Some e ->
  scrollToSection elementId w
  = Normal (mkWindow (document w)
              (mkScroll "smooth" (offsetTop e - 64) :: scrollRequests w)
              (prefersDark w) (clock w)).
Proof.
  intros G. rewrite scrollToSection_cases, G. reflexivity.
Qed.

Lemma scrollToSection_present_witness :
  let w := mkWindow [mkElement "about" 900; mkElement "projects" 1500] []
             true (mkDate 0 0) in
  scrollToSection "projects" w
  = Normal (mkWindow (document w)
              (mkScroll "smooth" (offsetTop (mkElement "projects" 1500) - 64)
                 :: scrollRequests w)
              (prefersDark w) (clock w)).
Proof.
  intros w.
  apply (scrollToSection_present w "projects" (mkElement "projects" 1500)).
  reflexivity.
Defined.

(** C4 — For an id that names no element of the document,
    [scrollToSection] returns normally (no exception) and leaves the window
    as it was: no scroll request is issued. *)
Theorem scrollToSection_absent (w : Window) (elementId : string) :
  getElementById w elementId = None ->
  scrollToSection elementId w = Normal w.
Proof.
  intros G. rewrite scrollToSection_cases, G. reflexivity.
Qed.

Lemma scrollToSection_absent_witness :
  scrollToSection "blog"
    (mkWindow [mkElement "about" 900; mkElement "projects" 1500] []
       true (mkDate 0 0))
  = Normal (mkWindow [mkElement "about" 900; mkElement "projects" 1500] []
              true (mkDate 0 0)).
Proof.
  apply (scrollToSection_absent
           (mkWindow [mkElement "about" 900; mkElement "projects" 1500] []
              true (mkDate 0 0)) "blog").
  reflexivity.
Defined.

(** C10 — The first render, before any effect has run, is in dark mode
    whatever the system prefers: the state starts at [true], the tree of the
    first render is the dark one and does not depend on the media query, and
    the preference is applied only by the effect that follows. *)
Theorem first_render_is_dark (w : Window) :
  darkMode initialHooks = true
  /\ Home initialHooks w = HomeView catalog true (getFullYear (clock w))
  /\ prop "theme" (Home initialHooks w) .: "palette" .: "mode" = VStr "dark"
  /\ (forall b, Home initialHooks (setPrefers b w) = Home initialHooks w)
  /\ darkMode (hooks (mountPage w)) = prefersDark w.
Proof.
  repeat split.
Qed.

(* ===================================================================== *)
(** ** The palette *)
(* ===================================================================== *)

(** C5, as stated, fails: the two accent colours of the palette are literals
    that do not depend on the mode. *)
Lemma accent_colours_same_in_both_modes :
  ~ (forall path, In path paletteAccents ->
       getPath path (theme true) <> getPath path (theme false)).
Proof.
  intros H.
  apply (H ["palette"; "primary"; "main"]).
  - left. reflexivity.
  - reflexivity.
Qed.

(** C5 (amended) — Every background and surface colour derived from the mode
    differs between dark and light: the palette's default and paper
    backgrounds, the colour entries of [styles] chosen by the mode, and the
    backgrounds of the sections and footer; the palette mode differs too.  The
    primary and secondary accent colours are the same in both modes. *)
Theorem palette_backgrounds_differ_accents_equal :
  Forall (fun path => getPath path (theme true) <> getPath path (theme false))
    paletteBackgrounds
  /\ Forall (fun path => getPath path (styles true) <> getPath path (styles false))
       styleColours
  /\ Forall2 (fun dark light => dark <> light)
       (sectionBackgrounds true) (sectionBackgrounds false)
  /\ theme true .: "palette" .: "mode" <> theme false .: "palette" .: "mode"
  /\ Forall (fun path => getPath path (theme true) = getPath path (theme false))
       paletteAccents
  /\ theme true .: "palette" .: "primary" .: "main" = VStr "#3a86ff"
  /\ theme true .: "palette" .: "secondary" .: "main" = VStr "#ff006e".
Proof.
  repeat split;
    repeat (constructor; [ vm_compute; try discriminate; reflexivity | ]);
    try constructor; vm_compute; discriminate.
Qed.

(* ===================================================================== *)
(** ** What the rendered tree depends on *)
(* ===================================================================== *)

Lemma numbers_Home (h : Hooks) (w : Window) :
  numbers (Home h w) = [getFullYear (clock w)].
Proof. unfold Home. destruct (darkMode h); reflexivity. Qed.

Lemma mode_of_Home (h : Hooks) (w : Window) :
  prop "theme" (Home h w) .: "palette" .: "mode"
  = VStr (if darkMode h then "dark" else "light").
Proof. reflexivity. Qed.

(** C6, as stated, fails: with the same mode and the same catalog, renders
    on the two sides of a new year differ (in the footer). *)
Lemma render_depends_on_clock :
  ~ (forall (h1 h2 : Hooks) (w1 w2 : Window),
       darkMode h1 = darkMode h2 -> Home h1 w1 = Home h2 w2).
Proof.
  intros H.
  specialize (H initialHooks initialHooks
                (mkWindow [] [] true (mkDate 1704067199999 0))
                (mkWindow [] [] true (mkDate 1704067200000 0))
                eq_refl).
  apply (f_equal numbers) in H. rewrite !numbers_Home in H.
  vm_compute in H. discriminate H.
Qed.

(** C6 (amended) — The rendered tree is a function of the mode, the catalog
    and the calendar year of the clock: two renders with the same mode and the
    same year give identical trees (the catalog is the same literal arrays in
    every render), whatever the rest of the hook state and of the window. *)
Theorem render_determined_by_mode_and_year (h1 h2 : Hooks) (w1 w2 : Window) :
  darkMode h1 = darkMode h2 ->
  getFullYear (clock w1) = getFullYear (clock w2) ->
  Home h1 w1 = Home h2 w2.
Proof.
  intros M Y. unfold Home. rewrite M, Y. reflexivity.
Qed.

Lemma render_determined_by_mode_and_year_witness :
  Home (mkHooks false None)
       (mkWindow [] [] true (mkDate 1700000000000 0))
  = Home (mkHooks false (Some true))
       (mkWindow [mkElement "about" 900] [mkScroll "smooth" 836] false
          (mkDate 1690000000000 3600000)).
Proof.
  apply render_determined_by_mode_and_year.
  - reflexivity.
  - vm_compute. reflexivity.
Defined.

(** Conversely, trees that are equal come from the same mode and year. *)
Lemma render_reflects_mode_and_year (h1 h2 : Hooks) (w1 w2 : Window) :
  Home h1 w1 = Home h2 w2 ->
  darkMode h1 = darkMode h2 /\ getFullYear (clock w1) = getFullYear (clock w2).
Proof.
  intros E. split.
  - pose proof (f_equal (fun t => prop "theme" t .: "palette" .: "mode") E) as M.
    cbv beta in M. rewrite !mode_of_Home in M.
    destruct (darkMode h1), (darkMode h2); try reflexivity; discriminate M.
  - pose proof (f_equal numbers E) as N. rewrite !numbers_Home in N.
    congruence.
Qed.

(* ===================================================================== *)
(** ** Enumeration of the catalog *)
(* ===================================================================== *)

Section MapWithIndex.
Context {A : Type} (f : A -> Z -> Node).

Lemma flat_map_mapi_nil {B : Type} (g : Node -> list B) :
  (forall x i, g (f x i) = []) ->
  forall l i, flat_map g (mapi_from i f l) = [].
Proof.
  intros H l. induction l as [|x rest IH]; intros i; simpl; [reflexivity|].
  rewrite H, IH. reflexivity.
Qed.

Lemma flat_map_mapi_self (g : Node -> list Node) :
  (forall x i, g (f x i) = [f x i]) ->
  forall l i, flat_map g (mapi_from i f l) = mapi_from i f l.
Proof.
  intros H l. induction l as [|x rest IH]; intros i; simpl; [reflexivity|].
  rewrite H, IH. reflexivity.
Qed.

Lemma flat_map_mapi_one {B : Type} (g : Node -> list B) (h : A -> B) :
  (forall x i, g (f x i) = [h x]) ->
  forall l i, flat_map g (mapi_from i f l) = map h l.
Proof.
  intros H l. induction l as [|x rest IH]; intros i; simpl; [reflexivity|].
  rewrite H, IH. reflexivity.
Qed.

Lemma map_mapi {B : Type} (k : Node -> B) (h : A -> B) :
  (forall x i, k (f x i) = h x) ->
  forall l i, map k (mapi_from i f l) = map h l.
Proof.
  intros H l. induction l as [|x rest IH]; intros i; simpl; [reflexivity|].
  rewrite H, IH. reflexivity.
Qed.
End MapWithIndex.

Lemma flat_map_map_nil {A B : Type} (g : Node -> list B) (f : A -> Node) :
  (forall x, g (f x) = []) -> forall l, flat_map g (map f l) = [].
Proof.
  intros H l. induction l as [|x rest IH]; simpl; [reflexivity|].
  rewrite H, IH. reflexivity.
Qed.

Lemma flat_map_map_one {A B : Type} (g : Node -> list B) (f : A -> Node) (h : A -> B) :
  (forall x, g (f x) = [h x]) -> forall l, flat_map g (map f l) = map h l.
Proof.
  intros H l. induction l as [|x rest IH]; simpl; [reflexivity|].
  rewrite H, IH. reflexivity.
Qed.

(** The cards of the tree are the cards of the projects. *)
Lemma cards_of_projectCard (d : bool) (project : Project) (index : Z) :
  select isCard (projectCard d project index) = [projectCard d project index].
Proof.
  unfold projectCard. simpl select. unfold mapi.
  rewrite (flat_map_mapi_nil (projectTag d)) by reflexivity. reflexivity.
Qed.

Lemma cards_of_HomeView (cat : Catalog) (d : bool) (year : Z) :
  select isCard (HomeView cat d year) = mapi (projectCard d) (projects cat).
Proof.
  unfold HomeView, projectsSection, skillsSection.
  destruct d; simpl select; unfold mapi;
    rewrite !(flat_map_mapi_nil (skillRow _)) by reflexivity;
    rewrite (flat_map_map_nil (select isCard) (techTag _)) by reflexivity;
    rewrite (flat_map_mapi_self (projectCard _)) by apply cards_of_projectCard;
    simpl; rewrite !app_nil_r; reflexivity.
Qed.

Lemma title_of_projectCard (d : bool) (project : Project) (index : Z) :
  cardTitle (projectCard d project index) = title project.
Proof.
  unfold cardTitle, projectCard. simpl select. unfold mapi.
  rewrite (flat_map_mapi_nil (projectTag d)) by reflexivity. reflexivity.
Qed.

Lemma tags_of_projectCard (d : bool) (project : Project) (index : Z) :
  cardTags (projectCard d project index) = technologies project.
Proof.
  unfold cardTags, projectCard. simpl select. unfold mapi.
  rewrite (flat_map_mapi_self (projectTag d)) by reflexivity.
  simpl. rewrite !app_nil_r.
  rewrite (map_mapi (projectTag d) textContent (fun t => t)) by reflexivity.
  apply map_id.
Qed.

Lemma techTags_of_HomeView (cat : Catalog) (d : bool) (year : Z) :
  map textContent (select isTechTag (HomeView cat d year)) = others cat.
Proof.
  assert (T : forall i l,
             flat_map (select isTechTag) (mapi_from i (projectTag d) l) = []).
  { intros i l. apply (flat_map_mapi_nil (projectTag d)). reflexivity. }
  assert (P : forall l i,
             flat_map (select isTechTag) (mapi_from i (projectCard d) l) = []).
  { apply (flat_map_mapi_nil (projectCard d)). intros project index.
    unfold projectCard. simpl select. unfold mapi. rewrite T. reflexivity. }
  unfold HomeView, projectsSection, skillsSection.
  destruct d; simpl select; unfold mapi; rewrite P;
    rewrite !(flat_map_mapi_nil (skillRow _)) by reflexivity;
    rewrite (flat_map_map_one (select isTechTag) (techTag _) (techTag _))
      by reflexivity;
    simpl; rewrite !app_nil_r, map_map; apply map_id.
Qed.

(** C7 — The catalog is enumerated in declaration order, identically in
    every render: whatever the mode and the year, the cards of the tree are
    the projects in array order (title by title), the tags of each card are
    its technologies in array order, and the tags of the skills section are
    the other technologies in array order.  Rendering only reads the catalog:
    it is an argument of the render and the tree is its only result. *)
Theorem catalog_rendered_in_declaration_order
    (cat : Catalog) (d : bool) (year : Z) (h : Hooks) (w : Window) :
  let tree := HomeView cat d year in
  map cardTitle (select isCard tree) = map title (projects cat)
  /\ map cardTags (select isCard tree) = map technologies (projects cat)
  /\ map textContent (select isTechTag tree) = others cat
  /\ map cardTitle (select isCard (Home h w)) = map title projectsData
  /\ map cardTags (select isCard (Home h w)) = map technologies projectsData
  /\ map textContent (select isTechTag (Home h w)) = otherTechnologies.
Proof.
  assert (G : forall c b y,
             map cardTitle (select isCard (HomeView c b y)) = map title (projects c)
             /\ map cardTags (select isCard (HomeView c b y))
                = map technologies (projects c)
             /\ map textContent (select isTechTag (HomeView c b y)) = others c).
  { intros c b y. rewrite cards_of_HomeView. unfold mapi. repeat split.
    - apply (map_mapi (projectCard b)). apply title_of_projectCard.
    - apply (map_mapi (projectCard b)). apply tags_of_projectCard.
    - apply techTags_of_HomeView. }
  cbv zeta. unfold Home.
  destruct (G cat d year) as (G1 & G2 & G3).
  destruct (G catalog (darkMode h) (getFullYear (clock w))) as (H1 & H2 & H3).
  repeat split; assumption.
Qed.

(* ===================================================================== *)
(** ** Skills *)
(* ===================================================================== *)

Lemma texts_Elem (c : string) (ps : list (string * Val)) (ch : list Node) :
  texts (Elem c ps ch) = flat_map texts ch.
Proof. reflexivity. Qed.

Lemma skillRows_read_names (d : bool) (l l' : list Skill) :
  map name l = map name l' ->
  forall i, mapi_from i (skillRow d) l = mapi_from i (skillRow d) l'.
Proof.
  revert l'. induction l as [|s rest IH]; intros [|s' rest'] E i;
    try discriminate E; simpl; [reflexivity|].
  injection E as En Er. unfold skillRow at 1 3. rewrite En.
  f_equal. apply IH. exact Er.
Qed.

Lemma texts_of_skillRows (d : bool) (l : list Skill) (i : Z) :
  flat_map texts (mapi_from i (skillRow d) l) = map name l.
Proof. apply (flat_map_mapi_one (skillRow d)). reflexivity. Qed.

Lemma texts_of_skillsSection (cat : Catalog) (d : bool) :
  texts (skillsSection cat d)
  = (("Technical Skills" :: "Frontend Development" :: map name (frontend cat))
     ++ ("Backend Development" :: map name (backend cat))
     ++ ("Other Technologies" :: others cat))%list.
Proof.
  unfold skillsSection. simpl texts. unfold mapi.
  rewrite !texts_of_skillRows.
  rewrite (flat_map_map_one texts (techTag d) (fun t => t)) by reflexivity.
  rewrite map_id. simpl. rewrite !app_nil_r, <- ?app_assoc. reflexivity.
Qed.

Lemma texts_of_section_in_HomeView (cat : Catalog) (d : bool) (year : Z) (s : string) :
  In s (texts (skillsSection cat d)) -> In s (texts (HomeView cat d year)).
Proof.
  intros H. unfold HomeView.
  rewrite texts_Elem. cbn [flat_map]. rewrite !in_app_iff.
  right; right; left.
  rewrite texts_Elem. cbn [flat_map]. rewrite !in_app_iff. tauto.
Qed.

(** C8 — The proficiency values do not reach the tree: two catalogs whose
    skills have the same names in the same order (and that agree on projects
    and tags) render identically, whatever their values; and the name of
    every frontend and backend skill is a text of the tree. *)
Theorem skill_values_not_rendered (cat cat' : Catalog) (d : bool) (year : Z) :
  projects cat = projects cat' ->
  map name (frontend cat) = map name (frontend cat') ->
  map name (backend cat) = map name (backend cat') ->
  others cat = others cat' ->
  HomeView cat d year = HomeView cat' d year
  /\ Forall (fun s => In (name s) (texts (HomeView cat d year)))
       (frontend cat ++ backend cat).
Proof.
  intros P F B O. split.
  - unfold HomeView, projectsSection, skillsSection, mapi.
    rewrite P, O.
    rewrite (skillRows_read_names d _ _ F), (skillRows_read_names d _ _ B).
    reflexivity.
  - apply Forall_forall. intros s I.
    apply texts_of_section_in_HomeView. rewrite texts_of_skillsSection.
    apply in_app_or in I. rewrite !in_app_iff. simpl.
    destruct I as [I | I]; apply (in_map name) in I; auto.
Qed.

Lemma skill_values_not_rendered_witness :
  HomeView catalog true 2024 = HomeView (withValues 0 catalog) true 2024
  /\ Forall (fun s => In (name s) (texts (HomeView catalog true 2024)))
       (frontend catalog ++ backend catalog).
Proof.
  apply (skill_values_not_rendered catalog (withValues 0 catalog) true 2024);
    reflexivity.
Defined.

(* ===================================================================== *)
(** ** The contact form *)
(* ===================================================================== *)

Lemma form_of_HomeView (d : bool) (year : Z) :
  select isForm (HomeView catalog d year) = [contactForm d].
Proof. destruct d; reflexivity. Qed.

Lemma submit_handlers (d : bool) (year : Z) :
  bubble "onClick" isSubmitButton (HomeView catalog d year) = Some []
  /\ bubble "onSubmit" isForm (HomeView catalog d year) = Some []
  /\ select (hasHandler "onSubmit") (HomeView catalog d year) = [].
Proof. destruct d; repeat split. Qed.

Lemma fire_without_handlers (eventProp : string) (isTarget : Node -> bool) (p : Page) :
  bubble eventProp isTarget (Home (hooks p) (window p)) = Some [] ->
  fire eventProp isTarget p = Normal p.
Proof.
  intros B. unfold fire. rewrite B. simpl. rewrite Bool.eqb_reflx. reflexivity.
Qed.

(** C9 — The contact form has three text fields, labelled Name, Email and
    Message, and a submit button; neither the form, nor the button, nor any
    element around them has a handler for the click or for the submission,
    and no element of the page has an [onSubmit] handler.  Submitting
    therefore calls nothing and leaves the page state as it was. *)
Theorem contact_form_submit_is_noop (p : Page) :
  let tree := Home (hooks p) (window p) in
  select isForm tree = [contactForm (darkMode (hooks p))]
  /\ map (prop "label") (select isTextField (contactForm (darkMode (hooks p))))
     = [VStr "Name"; VStr "Email"; VStr "Message"]
  /\ select isTextField tree = select isTextField (contactForm (darkMode (hooks p)))
  /\ bubble "onClick" isSubmitButton tree = Some []
  /\ bubble "onSubmit" isForm tree = Some []
  /\ select (hasHandler "onSubmit") tree = []
  /\ step SubmitContactForm p = Normal p.
Proof.
  cbv zeta. unfold Home.
  generalize (getFullYear (clock (window p))) as year. intros year.
  destruct (submit_handlers (darkMode (hooks p)) year) as (C & S & N).
  split; [apply form_of_HomeView|].
  split; [destruct (darkMode (hooks p)); reflexivity|].
  split; [destruct (darkMode (hooks p)); reflexivity|].
  split; [exact C|]. split; [exact S|]. split; [exact N|].
  unfold step.
  rewrite (fire_without_handlers "onClick" isSubmitButton p)
    by apply submit_handlers.
  unfold bind.
  apply fire_without_handlers. apply submit_handlers.
Qed.

(* ===================================================================== *)
(** ** Navigation targets *)
(* ===================================================================== *)

Lemma ids_of_HomeView (cat : Catalog) (d : bool) (year : Z) :
  ids (HomeView cat d year)
  = ["about"; "projects"; "skills"; "contact"; "name"; "email"; "message"].
Proof.
  assert (P : forall l i,
             flat_map (select hasId) (mapi_from i (projectCard d) l) = []).
  { apply (flat_map_mapi_nil (projectCard d)). intros project index.
    unfold projectCard. simpl select. unfold mapi.
    rewrite (flat_map_mapi_nil (projectTag d)) by reflexivity. reflexivity. }
  unfold ids, HomeView, projectsSection, skillsSection.
  destruct d; simpl select; unfold mapi; rewrite P;
    rewrite !(flat_map_mapi_nil (skillRow _)) by reflexivity;
    rewrite (flat_map_map_nil (select hasId) (techTag _)) by reflexivity;
    reflexivity.
Qed.

Lemma scrollTargets_of_HomeView (cat : Catalog) (d : bool) (year : Z) :
  scrollTargets (HomeView cat d year)
  = ["about"; "projects"; "skills"; "contact"; "contact"; "projects"].
Proof.
  assert (P : forall l i,
             flat_map (select (hasHandler "onClick"))
               (mapi_from i (projectCard d) l) = []).
  { apply (flat_map_mapi_nil (projectCard d)). intros project index.
    unfold projectCard. simpl select. unfold mapi.
    rewrite (flat_map_mapi_nil (projectTag d)) by reflexivity. reflexivity. }
  unfold scrollTargets, HomeView, projectsSection, skillsSection.
  destruct d; simpl select; unfold mapi; rewrite P;
    rewrite !(flat_map_mapi_nil (skillRow _)) by reflexivity;
    rewrite (flat_map_map_nil (select (hasHandler "onClick")) (techTag _))
      by reflexivity;
    reflexivity.
Qed.

(** X1 — Whatever the catalog, the mode and the year, the elements of the
    tree that carry an id are the four sections and the three form fields,
    with pairwise distinct ids, and every handler that scrolls passes the id
    of one of the four sections: no button scrolls to an id the page does not
    define. *)
Theorem scroll_targets_are_section_ids (cat : Catalog) (d : bool) (year : Z) :
  let tree := HomeView cat d year in
  ids tree = (sectionIds ++ ["name"; "email"; "message"])%list
  /\ NoDup (ids tree)
  /\ Forall (fun target => In target sectionIds /\ In target (ids tree))
       (scrollTargets tree).
Proof.
  cbv zeta. rewrite ids_of_HomeView, scrollTargets_of_HomeView.
  split; [reflexivity|]. split.
  - repeat (constructor; [simpl; intuition discriminate|]). constructor.
  - repeat (constructor; [simpl; intuition congruence|]). constructor.
Qed.

(* ===================================================================== *)
(** ** Clicks, step by step *)
(* ===================================================================== *)

Lemma scrolledFrom_refl (w : Window) : scrolledFrom w w.
Proof. split; [reflexivity|]. exists []. split; [reflexivity | constructor]. Qed.

Lemma scrolledFrom_trans (w1 w2 w3 : Window) :
  scrolledFrom w1 w2 -> scrolledFrom w2 w3 -> scrolledFrom w1 w3.
Proof.
  intros (D1 & n1 & R1 & F1) (D2 & n2 & R2 & F2). split; [congruence|].
  exists (n2 ++ n1)%list. split.
  - rewrite R2, R1, app_assoc. reflexivity.
  - apply Forall_app. split; [|exact F1]. rewrite <- D1. exact F2.
Qed.

Lemma scrollToSection_section (elementId : string) (w : Window) :
  In elementId sectionIds ->
  exists w', scrollToSection elementId w = Normal w'
             /\ prefersDark w' = prefersDark w
             /\ clock w' = clock w
             /\ scrolledFrom w w'.
Proof.
  intros I. rewrite scrollToSection_cases. unfold getElementById.
  destruct (find (fun e => String.eqb (id e) elementId) (document w)) as [e|] eqn:F.
  - apply find_some in F. destruct F as (Ie & Eq). apply String.eqb_eq in Eq.
    eexists. split; [reflexivity|]. repeat split.
    exists [mkScroll "smooth" (offsetTop e - 64)]. split; [reflexivity|].
    constructor; [|constructor]. split; [reflexivity|].
    exists e. rewrite Eq. auto.
  - exists w. split; [reflexivity|]. repeat split. apply scrolledFrom_refl.
Qed.

Lemma isScroll_section (a : Action) :
  isScroll a = true -> exists elementId, a = ScrollToSection elementId
                                         /\ In elementId sectionIds.
Proof.
  destruct a as [elementId | value]; [|discriminate].
  unfold isScroll. intros E. exists elementId. split; [reflexivity|].
  apply existsb_exists in E. destruct E as (y & Iy & Ey).
  apply String.eqb_eq in Ey. subst y. exact Iy.
Qed.

Lemma performAll_scrolls (acts : list Action) :
  forallb isScroll acts = true ->
  forall p, exists w', performAll acts p = Normal (mkPage (hooks p) w')
                       /\ prefersDark w' = prefersDark (window p)
                       /\ clock w' = clock (window p)
                       /\ scrolledFrom (window p) w'.
Proof.
  induction acts as [|a rest IH]; intros A p; simpl.
  - exists (window p). destruct p; simpl. repeat split. apply scrolledFrom_refl.
  - simpl in A. apply andb_prop in A. destruct A as (Aa & Ar).
    destruct (isScroll_section a Aa) as (x & -> & Ix). simpl.
    destruct (scrollToSection_section x (window p) Ix) as (w1 & -> & P1 & C1 & S1).
    simpl.
    destruct (IH Ar (mkPage (hooks p) w1)) as (w2 & -> & P2 & C2 & S2).
    simpl in *. exists w2. split; [reflexivity|].
    repeat split; try congruence.
    + apply (scrolledFrom_trans _ w1); assumption.
    + apply (scrolledFrom_trans _ w1); assumption.
Qed.

Lemma fire_scrolls (eventProp : string) (isTarget : Node -> bool) (p : Page) :
  onlyScrolls (bubble eventProp isTarget (Home (hooks p) (window p))) = true ->
  exists w', fire eventProp isTarget p = Normal (mkPage (hooks p) w')
             /\ prefersDark w' = prefersDark (window p)
             /\ clock w' = clock (window p)
             /\ scrolledFrom (window p) w'.
Proof.
  intros O. unfold fire.
  destruct (bubble eventProp isTarget (Home (hooks p) (window p))) as [acts|].
  - destruct (performAll_scrolls acts O p) as (w' & -> & P & C & S).
    simpl. rewrite Bool.eqb_reflx. eauto.
  - exists (window p). destruct p; simpl. repeat split. apply scrolledFrom_refl.
Qed.

Lemma labelled_handlers (f : string -> bool) (d : bool) (year : Z) :
  onlyScrolls
    (bubble "onClick"
       (fun n => isComponent "Button" n
                 && match texts n with [s] => f s | _ => false end)
       (HomeView catalog d year)) = true.
Proof.
  destruct d; cbn;
    repeat match goal with
           | |- context [f ?s] => destruct (f s); cbn
           end; reflexivity.
Qed.

Lemma button_handlers (label : string) (d : bool) (year : Z) :
  onlyScrolls (bubble "onClick" (isButtonLabelled label) (HomeView catalog d year))
  = true.
Proof. exact (labelled_handlers (fun s => String.eqb s label) d year). Qed.

Lemma nav_handler (d : bool) (year : Z) (label target : string) :
  In (label, target) navButtons ->
  bubble "onClick" (isButtonLabelled label) (HomeView catalog d year)
  = Some [ScrollToSection target].
Proof.
  intros I. simpl in I.
  repeat (destruct I as [I | I];
          [injection I as <- <-; destruct d; reflexivity |]).
  contradiction.
Qed.

(** X2 — A click on a button labelled About, Projects, Skills, Contact,
    Get in Touch or View Work does exactly what [scrollToSection] does with
    the id of its section, and leaves the hook state as it was. *)
Theorem nav_button_click_scrolls (p : Page) (label target : string) :
  In (label, target) navButtons ->
  step (ClickButton label) p
  = (w <- scrollToSection target (window p) ;; Normal (mkPage (hooks p) w)).
Proof.
  intros I. unfold step, fire, Home. rewrite (nav_handler _ _ _ _ I).
  simpl. destruct (scrollToSection_returns target (window p)) as (w' & -> & _).
  simpl. rewrite Bool.eqb_reflx. reflexivity.
Qed.

Lemma nav_button_click_scrolls_witness :
  step (ClickButton "Get in Touch")
    (mkPage (mkHooks false (Some true))
       (mkWindow [mkElement "contact" 2400] [] true (mkDate 0 0)))
  = Normal (mkPage (mkHooks false (Some true))
              (mkWindow [mkElement "contact" 2400] [mkScroll "smooth" 2336]
                 true (mkDate 0 0))).
Proof.
  apply (nav_button_click_scrolls
           (mkPage (mkHooks false (Some true))
              (mkWindow [mkElement "contact" 2400] [] true (mkDate 0 0)))
           "Get in Touch" "contact").
  simpl. auto 10.
Defined.

(** X3 — A click on a button, whatever its label (a button that scrolls, a
    button without handler, or no such button at all), returns normally and
    changes neither the hook state, nor the document, the media query or the
    clock: only the toggle changes the mode. *)
Theorem button_click_keeps_theme (label : string) (p : Page) :
  exists w, step (ClickButton label) p = Normal (mkPage (hooks p) w)
            /\ document w = document (window p)
            /\ prefersDark w = prefersDark (window p)
            /\ clock w = clock (window p).
Proof.
  destruct (fire_scrolls "onClick" (isButtonLabelled label) p)
    as (w & F & P & C & D & _).
  - unfold Home. apply button_handlers.
  - exists w. auto.
Qed.

(* ===================================================================== *)
(** ** Runs of events *)
(* ===================================================================== *)

Lemma scrolledFrom_same (w w' : Window) :
  document w' = document w -> scrollRequests w' = scrollRequests w ->
  scrolledFrom w w'.
Proof.
  intros D R. split; [exact D|]. exists []. split; [exact R | constructor].
Qed.

Lemma step_theme (e : Event) (p : Page) :
  inSync p ->
  exists p', step e p = Normal p'
             /\ inSync p'
             /\ themeOf p' = themeStep e (themeOf p)
             /\ scrolledFrom (window p) (window p').
Proof.
  intros S. destruct e as [b| |label| |d].
  - eexists. split; [reflexivity|]. split; [apply commit_inSync|].
    split; [|apply scrolledFrom_same; reflexivity].
    unfold themeOf, themeStep. simpl.
    destruct (Bool.eqb b (prefersDark (window p))) eqn:B.
    + apply Bool.eqb_prop in B. subst b.
      rewrite runEffect_same by exact S. reflexivity.
    + rewrite (runEffect_changed _ _ (prefersDark (window p))); simpl; auto.
      intros E. rewrite E, Bool.eqb_reflx in B. discriminate B.
  - rewrite (click_toggle p S). eexists. split; [reflexivity|].
    split; [exact S|]. split; [reflexivity | apply scrolledFrom_refl].
  - destruct (fire_scrolls "onClick" (isButtonLabelled label) p)
      as (w & F & P & C & D).
    { unfold Home. apply button_handlers. }
    simpl. rewrite F. eexists. split; [reflexivity|].
    unfold inSync, themeOf in *. simpl. rewrite P. auto.
  - exists p. unfold step.
    rewrite (fire_without_handlers "onClick" isSubmitButton p)
      by apply submit_handlers.
    unfold bind.
    rewrite (fire_without_handlers "onSubmit" isForm p) by apply submit_handlers.
    split; [reflexivity|]. split; [exact S|].
    split; [reflexivity | apply scrolledFrom_refl].
  - eexists. split; [reflexivity|]. split; [exact S|].
    split; [reflexivity | apply scrolledFrom_same; reflexivity].
Qed.

Lemma run_theme (events : list Event) :
  forall p, inSync p ->
  exists p', run events p = Normal p'
             /\ inSync p'
             /\ themeOf p' = fold_left (fun s e => themeStep e s) events (themeOf p)
             /\ scrolledFrom (window p) (window p').
Proof.
  induction events as [|e rest IH]; intros p S; simpl.
  - exists p. repeat split; auto. apply scrolledFrom_refl.
  - destruct (step_theme e p S) as (p1 & -> & S1 & T1 & W1). simpl.
    destruct (IH p1 S1) as (p2 & R2 & S2 & T2 & W2).
    exists p2. rewrite <- T1. repeat split; auto.
    + apply (scrolledFrom_trans _ (window p1)); assumption.
    + apply (scrolledFrom_trans _ (window p1)); assumption.
Qed.

(** X4 — No sequence of events makes the page throw.  From any mount, any
    sequence of preference changes, toggles, button clicks, submissions and
    clock changes completes normally; it leaves the document as it was, and
    what it adds to the scroll requests are smooth requests, each 64 above the
    top of an element of the document that carries one of the four section
    ids. *)
Theorem run_completes_with_section_requests (w : Window) (events : list Event) :
  exists p, run events (mountPage w) = Normal p
            /\ document (window p) = document w
            /\ exists new,
                 scrollRequests (window p) = (new ++ scrollRequests w)%list
                 /\ Forall (sectionRequest (document w)) new.
Proof.
  destruct (run_theme events (mountPage w) (commit_inSync _))
    as (p & R & _ & _ & D & N).
  exists p. auto.
Qed.

(** X5 — Through any sequence of events the mode behaves as a two-bit
    machine that starts with the mode equal to the media query: a toggle
    negates the mode; a notification of the media query sets the mode to the
    new value when that value differs from the last one, and does nothing
    when it is the same; clicks on buttons, submissions of the form and the
    clock do not touch it. *)
Theorem theme_follows_toggles_and_signal (w : Window) (events : list Event) :
  exists p, run events (mountPage w) = Normal p
            /\ themeOf p
               = fold_left (fun s e => themeStep e s) events
                   (prefersDark w, prefersDark w).
Proof.
  destruct (run_theme events (mountPage w) (commit_inSync _))
    as (p & R & _ & T & _).
  exists p. split; [exact R | exact T].
Qed.

(** X6 — A notification of the media query that carries the value it
    already has changes nothing: a mode that the user has toggled stays
    toggled until the system preference really changes. *)
Theorem repeated_signal_keeps_page (p : Page) :
  reachable p ->
  step (PreferenceChanged (prefersDark (window p))) p = Normal p.
Proof.
  intros R. pose proof (reachable_inSync p R) as S. simpl.
  replace (setPrefers (prefersDark (window p)) (window p)) with (window p)
    by (destruct (window p); reflexivity).
  f_equal. transitivity (commit p).
  - destruct p; reflexivity.
  - apply commit_of_inSync. exact S.
Qed.

Lemma repeated_signal_keeps_page_witness :
  step (PreferenceChanged true)
    (mkPage (mkHooks false (Some true)) (mkWindow [] [] true (mkDate 0 0)))
  = Normal (mkPage (mkHooks false (Some true)) (mkWindow [] [] true (mkDate 0 0))).
Proof.
  apply (repeated_signal_keeps_page
           (mkPage (mkHooks false (Some true)) (mkWindow [] [] true (mkDate 0 0)))).
  exists (mkWindow [] [] true (mkDate 0 0)), [ClickToggle]. reflexivity.
Defined.

(** X7 — The effect settles in one run: after a render and its effect,
    rendering again (as the effect's own [setDarkMode] makes React do) runs
    nothing more, whatever state the page was in. *)
Theorem effect_settles (p : Page) : commit (commit p) = commit p.
Proof. apply commit_of_inSync. apply commit_inSync. Qed.

(* ===================================================================== *)
(** ** What a render shows *)
(* ===================================================================== *)

(** X8 — Renders in different modes, or in different years, are never the
    same tree: a toggle always changes what [Home] returns. *)
Theorem renders_differ_with_mode_or_year (h1 h2 : Hooks) (w1 w2 : Window) :
  darkMode h1 <> darkMode h2
  \/ getFullYear (clock w1) <> getFullYear (clock w2) ->
  Home h1 w1 <> Home h2 w2.
Proof.
  intros D E. apply render_reflects_mode_and_year in E.
  destruct E as (M & Y). destruct D as [D | D]; contradiction.
Qed.

Lemma renders_differ_with_mode_or_year_witness :
  Home (mkHooks true (Some true)) (mkWindow [] [] true (mkDate 0 0))
  <> Home (mkHooks false (Some true)) (mkWindow [] [] true (mkDate 0 0)).
Proof.
  apply renders_differ_with_mode_or_year.
  left. simpl. discriminate.
Defined.




Lemma links_of_projectCard (d : bool) (project : Project) (index : Z) :
  cardLinks (projectCard d project index)
  = [VStr (github project); VStr (demo project)].
Proof.
  unfold cardLinks, projectCard. simpl select. unfold mapi.
  rewrite (flat_map_mapi_nil (projectTag d)) by reflexivity. reflexivity.
Qed.

(** X10 — The two buttons of the i-th card link to the repository and to the
    demo of the i-th project, in that order, for every catalog. *)
Theorem cards_link_to_their_project (cat : Catalog) (d : bool) (year : Z) :
  map cardLinks (select isCard (HomeView cat d year))
  = map (fun project => [VStr (github project); VStr (demo project)])
      (projects cat).
Proof.
  rewrite cards_of_HomeView. unfold mapi.
  apply (map_mapi (projectCard d)). apply links_of_projectCard.
Qed.

Lemma projectCards_read_shown (d : bool) (l l' : list Project) :
  map projectShown l = map projectShown l' ->
  forall i, mapi_from i (projectCard d) l = mapi_from i (projectCard d) l'.
Proof.
  revert l'. induction l as [|x rest IH]; intros [|x' rest'] E i;
    try discriminate E; simpl; [reflexivity|].
  injection E as Et Ed Ek Eg Em Er.
  unfold projectCard at 1 3. rewrite Et, Ed, Ek, Eg, Em.
  f_equal. apply IH. exact Er.
Qed.

(** X11 — The [image] of a project is never rendered: catalogs whose
    projects agree on title, description, technologies and the two addresses
    (and that agree on skills and tags) give the same tree, whatever the image
    paths. *)
Theorem project_images_not_rendered (cat cat' : Catalog) (d : bool) (year : Z) :
  map projectShown (projects cat) = map projectShown (projects cat') ->
  frontend cat = frontend cat' ->
  backend cat = backend cat' ->
  others cat = others cat' ->
  HomeView cat d year = HomeView cat' d year.
Proof.
  intros P F B O. unfold HomeView, projectsSection, skillsSection, mapi.
  rewrite F, B, O, (projectCards_read_shown d _ _ P). reflexivity.
Qed.

Lemma project_images_not_rendered_witness :
  HomeView catalog false 2025 = HomeView (withImages "/none.png" catalog) false 2025.
Proof.
  apply (project_images_not_rendered catalog (withImages "/none.png" catalog));
    reflexivity.
Defined.

Lemma texts_of_projectCard (d : bool) (project : Project) (index : Z) :
  texts (projectCard d project index)
  = (title project :: description project :: technologies project
     ++ ["Code"; "Live Demo"])%list.
Proof.
  unfold projectCard. simpl texts. unfold mapi.
  rewrite (flat_map_mapi_one (projectTag d) texts (fun t => t)) by reflexivity.
  rewrite map_id, app_nil_r. reflexivity.
Qed.

Lemma flat_map_mapi_ext {A B : Type} (g : Node -> list B)
    (f f' : A -> Z -> Node) :
  (forall x i, g (f x i) = g (f' x i)) ->
  forall l i, flat_map g (mapi_from i f l) = flat_map g (mapi_from i f' l).
Proof.
  intros H l. induction l as [|x rest IH]; intros i; simpl; [reflexivity|].
  rewrite H, IH. reflexivity.
Qed.

Lemma flat_map_map_ext {A B : Type} (g : Node -> list B) (f f' : A -> Node) :
  (forall x, g (f x) = g (f' x)) ->
  forall l, flat_map g (map f l) = flat_map g (map f' l).
Proof.
  intros H l. induction l as [|x rest IH]; simpl; [reflexivity|].
  rewrite H, IH. reflexivity.
Qed.

Lemma texts_dark_light (cat : Catalog) (year : Z) :
  texts (HomeView cat true year) = texts (HomeView cat false year).
Proof.
  unfold HomeView, projectsSection, skillsSection.
  simpl texts. unfold mapi.
  rewrite (flat_map_mapi_ext texts (projectCard true) (projectCard false))
    by (intros; rewrite !texts_of_projectCard; reflexivity).
  rewrite !(flat_map_mapi_ext texts (skillRow true) (skillRow false))
    by reflexivity.
  rewrite (flat_map_map_ext texts (techTag true) (techTag false)) by reflexivity.
  reflexivity.
Qed.

Lemma numbers_of_HomeView (cat : Catalog) (d : bool) (year : Z) :
  numbers (HomeView cat d year) = [year].
Proof.
  assert (P : forall l i,
             flat_map numbers (mapi_from i (projectCard d) l) = []).
  { apply (flat_map_mapi_nil (projectCard d)). intros project index.
    unfold projectCard. simpl numbers. unfold mapi.
    rewrite (flat_map_mapi_nil (projectTag d)) by reflexivity. reflexivity. }
  unfold HomeView, projectsSection, skillsSection.
  destruct d; simpl numbers; unfold mapi; rewrite P;
    rewrite !(flat_map_mapi_nil (skillRow _)) by reflexivity;
    rewrite (flat_map_map_nil numbers (techTag _)) by reflexivity;
    reflexivity.
Qed.

(** X12 — The mode changes how the page looks, not what it says: for every
    catalog the texts of the tree, in document order, are the same in dark and
    in light mode, and the only number shown is the year. *)
Theorem texts_do_not_depend_on_mode (cat : Catalog) (d d' : bool) (year : Z) :
  texts (HomeView cat d year) = texts (HomeView cat d' year)
  /\ numbers (HomeView cat d year) = [year].
Proof.
  split; [|apply numbers_of_HomeView].
  pose proof (texts_dark_light cat year) as T.
  destruct d, d'; congruence.
Qed.

(* ===================================================================== *)
(** ** Keys of the rendered lists *)
(* ===================================================================== *)

Lemma keys_of_mapi {A : Type} (f : A -> Z -> Node) :
  (forall x i, prop "key" (f x i) = VNum (inject_Z i)) ->
  forall l i, keysOf (mapi_from i f l)
              = map (fun j => VNum (inject_Z j)) (indices_from i l).
Proof.
  intros H l. induction l as [|x rest IH]; intros i; simpl; [reflexivity|].
  rewrite H. f_equal. apply IH.
Qed.

Lemma indices_from_lower {A : Type} (l : list A) :
  forall i j, In j (indices_from i l) -> i <= j.
Proof.
  induction l as [|x rest IH]; intros i j I; simpl in I; [contradiction|].
  destruct I as [<- | I]; [lia|]. apply IH in I. lia.
Qed.

Lemma indices_from_NoDup {A : Type} (l : list A) :
  forall i, NoDup (indices_from i l).
Proof.
  induction l as [|x rest IH]; intros i; simpl; constructor.
  - intros I. apply indices_from_lower in I. lia.
  - apply IH.
Qed.

Lemma techTags_selected (cat : Catalog) (d : bool) (year : Z) :
  select isTechTag (HomeView cat d year) = map (techTag d) (others cat).
Proof.
  assert (P : forall l i,
             flat_map (select isTechTag) (mapi_from i (projectCard d) l) = []).
  { apply (flat_map_mapi_nil (projectCard d)). intros project index.
    unfold projectCard. simpl select. unfold mapi.
    rewrite (flat_map_mapi_nil (projectTag d)) by reflexivity. reflexivity. }
  unfold HomeView, projectsSection, skillsSection.
  destruct d; simpl select; unfold mapi; rewrite P;
    rewrite !(flat_map_mapi_nil (skillRow _)) by reflexivity;
    rewrite (flat_map_map_one (select isTechTag) (techTag _) (techTag _))
      by reflexivity;
    simpl; rewrite !app_nil_r; reflexivity.
Qed.

(** X13 — Keys of the rendered lists.  The cards are keyed by their position
    0, 1, 2, ..., so their keys are pairwise distinct for every catalog.  The
    tags of the other technologies are keyed by their own text, so their keys
    are pairwise distinct exactly when the array has no repeated tag, which
    holds for the array the page declares. *)
Theorem list_keys_distinct (cat : Catalog) (d : bool) (year : Z) :
  let tree := HomeView cat d year in
  keysOf (select isCard tree)
  = map (fun i => VNum (inject_Z i)) (indices_from 0 (projects cat))
  /\ NoDup (keysOf (select isCard tree))
  /\ keysOf (select isTechTag tree) = map VStr (others cat)
  /\ (NoDup (keysOf (select isTechTag tree)) <-> NoDup (others cat))
  /\ NoDup otherTechnologies.
Proof.
  cbv zeta.
  assert (K : keysOf (select isCard (HomeView cat d year))
              = map (fun i => VNum (inject_Z i)) (indices_from 0 (projects cat))).
  { rewrite cards_of_HomeView. unfold mapi. apply keys_of_mapi. reflexivity. }
  assert (T : keysOf (select isTechTag (HomeView cat d year))
              = map VStr (others cat)).
  { rewrite techTags_selected. unfold keysOf. rewrite map_map. reflexivity. }
  split; [exact K|]. split; [|split; [exact T|split]].
  - rewrite K. apply Injective_map_NoDup; [|apply indices_from_NoDup].
    intros i j E. injection E as E. exact E.
  - rewrite T. split.
    + apply NoDup_map_inv.
    + apply Injective_map_NoDup. intros a b E. injection E as E. exact E.
  - unfold otherTechnologies.
    repeat (constructor; [simpl; intuition discriminate|]). constructor.
Qed.

(* ===================================================================== *)
(** ** Object spread *)
(* ===================================================================== *)

Lemma lookup_assign (fields : list (string * Val)) (k k' : string) (v : Val) :
  lookup k' (assign fields k v)
  = if String.eqb k' k then v else lookup k' fields.
Proof.
  induction fields as [|(k0, v0) rest IH]; simpl.
  - reflexivity.
  - destruct (String.eqb k k0) eqn:E; simpl.
    + apply String.eqb_eq in E. subst k0.
      destruct (String.eqb k' k); reflexivity.
    + destruct (String.eqb k' k0) eqn:E0.
      * apply String.eqb_eq in E0. subst k0.
        rewrite String.eqb_sym, E. reflexivity.
      * exact IH.
Qed.

Lemma lastBinding_from (k : string) (more : list (string * Val)) :
  forall found,
    fold_left (fun found kv => if String.eqb k (fst kv) then Some (snd kv) else found)
      more found
    = match lastBinding k more with Some v => Some v | None => found end.
Proof.
  unfold lastBinding. induction more as [|(k1, v1) rest IH]; intros found; simpl.
  - reflexivity.
  - rewrite IH. rewrite (IH (if String.eqb k k1 then Some v1 else None)).
    destruct (fold_left _ rest None); [reflexivity|].
    destruct (String.eqb k k1); reflexivity.
Qed.

(** X14 — Reading a property of [{ ...base, k1: v1, ..., kn: vn }] gives the
    value of the last of the listed properties with that name, and the
    property of [base] when none is listed: the listed properties override
    the spread ones and nothing else of [base] is lost. *)
Theorem spread_overrides (fields more : list (string * Val)) (k : string) :
  spread (VObj fields) more .: k
  = match lastBinding k more with
    | Some v => v
    | None => VObj fields .: k
    end.
Proof.
  unfold spread, get. revert fields.
  induction more as [|(k1, v1) rest IH]; intros fields; simpl.
  - reflexivity.
  - rewrite IH, lookup_assign. unfold lastBinding at 2. simpl.
    rewrite lastBinding_from.
    destruct (lastBinding k rest); [reflexivity|].
    destruct (String.eqb k k1); reflexivity.
Qed.

(* ===================================================================== *)
(** ** Elements that share an id *)
(* ===================================================================== *)



